(** * The three-levels-of-action task tracker (app_tres_niveles_accion.py)

    A shallow embedding of the script: the pandas operations it calls are
    modelled in [Module Pandas] (frames, label selection, masks, concat,
    sorting, and the CSV reader and writer at the level of fields), the
    script itself in [Module App]. *)

From Stdlib Require Import String Ascii.
From Stdlib Require Import List ZArith Bool Arith Lia Zify ZifyNat.
From Stdlib Require Import Permutation Sorted FinFun DecimalString DecimalNat DecimalZ.
Import ListNotations.

Open Scope string_scope.
Open Scope list_scope.
Open Scope nat_scope.

(** ** Exceptions and results *)

(** The exceptions of Python that the script can meet. [Unmodelled] is not
    one of them: it marks a call whose outcome in pandas is not described
    here (a file whose first record is longer than its header, which pandas
    reads with the leading fields as index labels; a truth value stored
    into a column of texts or of dates). Nothing is said about such a call,
    not even that it raises. *)
Inductive exn : Type :=
| KeyError
| ValueError
| EmptyDataError
| ParserError
| TypeError
| Unmodelled.

Inductive result (A : Type) : Type :=
| Ok (a : A)
| Raise (e : exn).

Arguments Ok {A} a.
Arguments Raise {A} e.

Definition bind {A B : Type} (m : result A) (k : A -> result B) : result B :=
  match m with
  | Ok a => k a
  | Raise e => Raise e
  end.

Notation "x <- m ;; k" := (bind m (fun x => k))
  (at level 61, m at next level, right associativity).

(** ** Calendar dates *)

Record date : Type := mkdate { year : nat; month : nat; day : nat }.

Definition date_eqb (a b : date) : bool :=
  (year a =? year b) && (month a =? month b) && (day a =? day b).

(** A key that orders dates chronologically. *)
Definition ordinal (d : date) : Z :=
  (Z.of_nat (year d) * 10000 + Z.of_nat (month d) * 100 + Z.of_nat (day d))%Z.

Definition is_leap (y : nat) : bool :=
  ((y mod 4 =? 0) && negb (y mod 100 =? 0)) || (y mod 400 =? 0).

Definition days_in_month (y m : nat) : nat :=
  match m with
  | 1 | 3 | 5 | 7 | 8 | 10 | 12 => 31
  | 4 | 6 | 9 | 11 => 30
  | 2 => if is_leap y then 29 else 28
  | _ => 0
  end.

(** A date that exists in the calendar and fits pandas' Timestamp
    (1677-09-22 to 2262-04-11 at midnight). *)
Definition valid_date (d : date) : bool :=
  (1 <=? month d) && (month d <=? 12) &&
  (1 <=? day d) && (day d <=? days_in_month (year d) (month d)) &&
  (16770922 <=? ordinal d)%Z && (ordinal d <=? 22620411)%Z.

(** ** Cell values

    [NA] stands for the missing value of a typed column (NaN, NaT), as
    [read_csv] gives it for an empty field; [PyNone] is Python's [None],
    an object like any other in a column of objects. [Timestamp] is a
    pandas Timestamp at midnight, [PyDate] a [datetime.date] object as
    [st.date_input] returns it. *)

Inductive value : Type :=
| NA
| Timestamp (d : date)
| PyDate (d : date)
| Int (z : Z)
| Str (s : string)
| Bool (b : bool)
| PyNone.

Definition isna (v : value) : bool :=
  match v with NA | PyNone => true | _ => false end.

(** Python's [==] on two cells: numbers and booleans compare by value,
    NaN equals nothing, [None] only itself, a Timestamp equals no
    [datetime.date]. *)
Definition py_eq (a b : value) : bool :=
  match a, b with
  | Timestamp x, Timestamp y => date_eqb x y
  | PyDate x, PyDate y => date_eqb x y
  | Int x, Int y => (x =? y)%Z
  | Int x, Bool y => (x =? Z.b2z y)%Z
  | Bool x, Int y => (Z.b2z x =? y)%Z
  | Bool x, Bool y => Bool.eqb x y
  | Str x, Str y => String.eqb x y
  | PyNone, PyNone => true
  | _, _ => false
  end.

Definition py_ne (a b : value) : bool := negb (py_eq a b).

Module Pandas.

(** ** Frames

    A frame has column labels and rows; a row carries its index label and
    one cell per column, in column order. *)

Record DataFrame : Type := mkDataFrame {
  columns : list string;
  rows : list (nat * list value)
}.

Definition index (df : DataFrame) : list nat := map fst (rows df).

Definition len (df : DataFrame) : nat := length (rows df).

(** Every row has a cell for every column. *)
Definition rectangular (df : DataFrame) : Prop :=
  Forall (fun r => length (snd r) = length (columns df)) (rows df).

(** [c in df.columns] *)
Definition contains (c : string) (cols : list string) : bool :=
  existsb (String.eqb c) cols.

(** The positions at which a label occurs among the columns. *)
Fixpoint positions_from (n : nat) (c : string) (cols : list string) : list nat :=
  match cols with
  | [] => []
  | x :: rest =>
      if String.eqb c x then n :: positions_from (S n) c rest
      else positions_from (S n) c rest
  end.

Definition positions (c : string) (cols : list string) : list nat :=
  positions_from 0 c cols.

(** [pd.DataFrame(columns=cols)] *)
Definition DataFrame_columns (cols : list string) : DataFrame :=
  {| columns := cols; rows := [] |}.

(** The default RangeIndex given to a list of rows. *)
Definition range_index (cells : list (list value)) : list (nat * list value) :=
  combine (seq 0 (length cells)) cells.

(** [d.get(k)] on a dict of cells, a missing value when [k] is no key. *)
Fixpoint dict_cell (d : list (string * value)) (k : string) : value :=
  match d with
  | [] => NA
  | (k', v) :: rest => if String.eqb k k' then v else dict_cell rest k
  end.

(** [pd.DataFrame(records)] for a list of dicts: the columns are the keys
    in order of first appearance, a key a dict lacks gives a missing cell. *)
Definition DataFrame_records (records : list (list (string * value))) : DataFrame :=
  let cols :=
    fold_left (fun cols d =>
                 cols ++ filter (fun k => negb (contains k cols)) (map fst d))
              records [] in
  {| columns := cols;
     rows := range_index (map (fun d => map (dict_cell d) cols) records) |}.

(** The cells at the positions [ps] (counted from [n]) become [v]. *)
Fixpoint set_at (ps : list nat) (n : nat) (v : value) (cells : list value) : list value :=
  match cells with
  | [] => []
  | x :: rest =>
      (if existsb (Nat.eqb n) ps then v else x) :: set_at ps (S n) v rest
  end.

(** [df[col] = v] for a scalar [v]: every cell of the column(s) labelled
    [col] becomes [v]; a new label is appended as the last column. *)
Definition setitem_scalar (df : DataFrame) (col : string) (v : value) : DataFrame :=
  if contains col (columns df) then
    {| columns := columns df;
       rows := map (fun r => (fst r, set_at (positions col (columns df)) 0 v (snd r))) (rows df) |}
  else
    {| columns := columns df ++ [col];
       rows := map (fun r => (fst r, snd r ++ [v])) (rows df) |}.

(** [df[labels]] for a list of labels: KeyError when a label is absent;
    otherwise, for each label in turn, every column carrying it. *)
Definition getitem_cols (df : DataFrame) (labels : list string) : result DataFrame :=
  if forallb (fun c => contains c (columns df)) labels then
    let ps := flat_map (fun c => positions c (columns df)) labels in
    Ok {| columns := map (fun p => nth p (columns df) "") ps;
          rows := map (fun r => (fst r, map (fun p => nth p (snd r) NA) ps)) (rows df) |}
  else Raise KeyError.

(** [row[col]] for a row of a frame with columns [cols] (the first column
    with that label; labels are distinct in the frames the script builds). *)
Definition row_get (cols : list string) (cells : list value) (col : string) : result value :=
  match positions col cols with
  | [] => Raise KeyError
  | p :: _ => Ok (nth p cells NA)
  end.

(** [df[col]] for one label: the column as a list of cells. *)
Definition getitem_col (df : DataFrame) (col : string) : result (list value) :=
  match positions col (columns df) with
  | [] => Raise KeyError
  | p :: _ => Ok (map (fun r => nth p (snd r) NA) (rows df))
  end.

(** [series == v], element by element, for a scalar [v] that is not
    missing. *)
Definition eq_scalar (s : list value) (v : value) : list bool :=
  map (fun x => py_eq x v) s.

(** [df[mask]] for a boolean mask aligned with the rows: the rows whose
    mask entry is True, with their index labels. *)
Fixpoint select_rows {A : Type} (mask : list bool) (l : list A) : list A :=
  match mask, l with
  | b :: mask', x :: l' => if b then x :: select_rows mask' l' else select_rows mask' l'
  | _, _ => []
  end.

Definition getitem_mask (df : DataFrame) (mask : list bool) : DataFrame :=
  {| columns := columns df; rows := select_rows mask (rows df) |}.

(** [df.empty]: some axis has length 0. *)
Definition empty (df : DataFrame) : bool :=
  match columns df, rows df with
  | [], _ => true
  | _, [] => true
  | _, _ => false
  end.

(** [df.iterrows()] *)
Definition iterrows (df : DataFrame) : list (nat * list value) := rows df.

(** [df.head(n)] *)
Definition head (n : nat) (df : DataFrame) : DataFrame :=
  {| columns := columns df; rows := firstn n (rows df) |}.

Definition is_number (v : value) : bool :=
  match v with
  | Int _ => true
  | _ => false
  end.

Definition is_timestamp (v : value) : bool :=
  match v with
  | Timestamp _ => true
  | _ => false
  end.

Definition is_text (v : value) : bool :=
  match v with
  | Str _ => true
  | _ => false
  end.

(** A typed column, told by its cells: each is of the kind [p] or is
    missing (NaN, NaT). Any other cell makes it a column of objects. So a
    column of integers (int64, or float64 when some are missing) is
    [column_of is_number], a datetime64 column [column_of is_timestamp], a
    column of texts [column_of is_text]. *)
Definition column_of (p : value -> bool) (cells : list value) : bool :=
  forallb (fun v => match v with NA => true | _ => p v end) cells.

(** The cells in position [j], row by row. *)
Definition column (df : DataFrame) (j : nat) : list value :=
  map (fun r => nth j (snd r) NA) (rows df).

(** [df.at[idx, col] = b] for a Python bool [b], as pandas 3 does it.

    When both labels are there, the column decides: a column of numbers
    does not take a truth value (TypeError; pandas 2 warned and turned the
    column into objects), a column of booleans or of objects takes it, and
    what a column of texts or of dates does is not described. The cell in
    column [col] of the row(s) labelled [idx] is then set.

    A label that is absent is added first (a row or a column of missing
    values), as pandas does when setting with enlargement. *)
Definition at_set (df : DataFrame) (idx : nat) (col : string) (b : bool) : result DataFrame :=
  let df1 := if contains col (columns df) then df else setitem_scalar df col NA in
  let df2 :=
    if existsb (Nat.eqb idx) (index df1) then df1
    else {| columns := columns df1;
            rows := rows df1 ++ [(idx, map (fun _ => NA) (columns df1))] |} in
  let df3 :=
    {| columns := columns df2;
       rows := map (fun r => if fst r =? idx
                             then (fst r, set_at (positions col (columns df2)) 0 (Bool b) (snd r))
                             else r) (rows df2) |} in
  if contains col (columns df) && existsb (Nat.eqb idx) (index df) then
    cells <- getitem_col df col ;;
    if column_of is_number cells then Raise TypeError
    else if column_of is_timestamp cells || column_of is_text cells then Raise Unmodelled
    else Ok df3
  else Ok df3.

(** The cells of a row laid out for the labels [new]: a label the row does
    not have gets a missing value. *)
Definition reindex_cells (old new : list string) (cells : list value) : list value :=
  map (fun c => match positions c old with
                | [] => NA
                | p :: _ => nth p cells NA
                end) new.

(** [pd.concat([a, b], ignore_index=True)]: the columns of [a] followed by
    the new ones of [b], the rows of [a] followed by those of [b], and a
    fresh RangeIndex. *)
Definition concat_ignore_index (a b : DataFrame) : DataFrame :=
  let cols := columns a ++ filter (fun c => negb (contains c (columns a))) (columns b) in
  {| columns := cols;
     rows := range_index
               (map (fun r => reindex_cells (columns a) cols (snd r)) (rows a) ++
                map (fun r => reindex_cells (columns b) cols (snd r)) (rows b)) |}.

(** *** Sorting

    Cells are ordered within one kind; a column that mixes kinds cannot be
    sorted (pandas raises TypeError). Missing values go last. *)

Inductive kind : Type := KTimestamp | KDate | KNumber | KText.

Definition kind_of (v : value) : option kind :=
  match v with
  | NA | PyNone => None
  | Timestamp _ => Some KTimestamp
  | PyDate _ => Some KDate
  | Int _ | Bool _ => Some KNumber
  | Str _ => Some KText
  end.

Definition kind_eqb (a b : kind) : bool :=
  match a, b with
  | KTimestamp, KTimestamp | KDate, KDate | KNumber, KNumber | KText, KText => true
  | _, _ => false
  end.

Fixpoint one_kind (k : option kind) (keys : list value) : bool :=
  match keys with
  | [] => true
  | v :: rest =>
      match kind_of v, k with
      | None, _ => one_kind k rest
      | Some kv, None => one_kind (Some kv) rest
      | Some kv, Some k0 => kind_eqb kv k0 && one_kind k rest
      end
  end.

Definition number_of (v : value) : Z :=
  match v with
  | Int z => z
  | Bool b => Z.b2z b
  | _ => 0%Z
  end.

(** [a <= b] for two cells of one kind. *)
Definition value_leb (a b : value) : bool :=
  match a, b with
  | Timestamp x, Timestamp y => (ordinal x <=? ordinal y)%Z
  | PyDate x, PyDate y => (ordinal x <=? ordinal y)%Z
  | Str x, Str y => String.leb x y
  | (Int _ | Bool _), (Int _ | Bool _) => (number_of a <=? number_of b)%Z
  | _, _ => false
  end.

(** [a] may stand before [b] in descending order, missing values last. *)
Definition before_desc (a b : value) : bool :=
  match a, b with
  | _, (NA | PyNone) => true
  | (NA | PyNone), _ => false
  | _, _ => value_leb b a
  end.

Section Insertion.
Context {A : Type} (before : A -> A -> bool).

Fixpoint insert (x : A) (l : list A) : list A :=
  match l with
  | [] => [x]
  | y :: rest => if before x y then x :: l else y :: insert x rest
  end.

Fixpoint isort (l : list A) : list A :=
  match l with
  | [] => []
  | x :: rest => insert x (isort rest)
  end.

End Insertion.

(** [df.sort_values(by, ascending=False)]; rows with equal keys come in
    the order they had, one of the orders pandas' default sort may give. *)
Definition sort_values_desc (df : DataFrame) (by_ : string) : result DataFrame :=
  match positions by_ (columns df) with
  | [] => Raise KeyError
  | p :: _ =>
      let key := fun r : nat * list value => nth p (snd r) NA in
      if one_kind None (map key (rows df)) then
        Ok {| columns := columns df;
              rows := isort (fun a b => before_desc (key a) (key b)) (rows df) |}
      else Raise TypeError
  end.

Definition summable (v : value) : bool :=
  match v with
  | NA | PyNone | Int _ | Bool _ => true
  | _ => false
  end.

Definition text_of (v : value) : option string :=
  match v with
  | Str s => Some s
  | _ => None
  end.

(** [series.sum()]: numbers and booleans add up and missing values are
    skipped; a column of texts only is joined; any other mix cannot be
    added (TypeError). *)
Definition sum (s : list value) : result value :=
  if forallb summable s then
    Ok (Int (fold_left (fun acc v => (acc + number_of v)%Z) s 0%Z))
  else if forallb (fun v => is_text v) s then
    Ok (Str (fold_left (fun acc v => match text_of v with
                                     | Some t => (acc ++ t)%string
                                     | None => acc
                                     end) s ""))
  else Raise TypeError.

(** *** CSV files

    A file is taken field by field: the header line and the records (the
    lines that are not blank), each a list of text fields. Quoting and line
    ends are below this level, and the file is taken to be valid UTF-8, a
    text being its bytes. The fields [to_csv] writes are the fields
    [read_csv] finds in the file as long as no text has a control
    character: a field with a comma, a quote or a line feed is quoted by
    the writer, one with a bare carriage return is not, and the reader
    takes the carriage return for a line end (see [printable]). *)

Record csv : Type := mkcsv {
  header : list string;
  records : list (list string)
}.

(** The fields [read_csv] takes for a missing value by default. *)
Definition na_values : list string :=
  [""; "#N/A"; "#N/A N/A"; "#NA"; "-1.#IND"; "-1.#QNAN"; "-NaN"; "-nan";
   "1.#IND"; "1.#QNAN"; "<NA>"; "N/A"; "NA"; "NULL"; "NaN"; "None"; "n/a";
   "nan"; "null"].

Definition is_na (s : string) : bool := existsb (String.eqb s) na_values.

Definition is_space (a : ascii) : bool :=
  let n := nat_of_ascii a in (n =? 32) || ((9 <=? n) && (n <=? 13)).

Fixpoint ltrim (l : list ascii) : list ascii :=
  match l with
  | [] => []
  | a :: rest => if is_space a then ltrim rest else l
  end.

Definition trim (l : list ascii) : list ascii := rev (ltrim (rev (ltrim l))).

Definition digit_of (a : ascii) : option nat :=
  let n := nat_of_ascii a in
  if (48 <=? n) && (n <=? 57) then Some (n - 48) else None.

Fixpoint digits_value (acc : Z) (l : list ascii) : option Z :=
  match l with
  | [] => Some acc
  | a :: rest =>
      match digit_of a with
      | Some d => digits_value (acc * 10 + Z.of_nat d) rest
      | None => None
      end
  end.

Definition unsigned (l : list ascii) : option Z :=
  match l with
  | [] => None
  | _ => digits_value 0 l
  end.

(** An integer field: blanks around it, an optional sign, decimal
    digits. *)
Definition parse_int (s : string) : option Z :=
  match trim (list_ascii_of_string s) with
  | "-"%char :: ds => option_map Z.opp (unsigned ds)
  | "+"%char :: ds => unsigned ds
  | ds => unsigned ds
  end.

(** An integer field within [lo, hi). *)
Definition fits (lo hi : Z) (s : string) : bool :=
  match parse_int s with
  | Some z => (lo <=? z)%Z && (z <? hi)%Z
  | None => false
  end.

Definition parse_bool (s : string) : option bool :=
  if existsb (String.eqb s) ["True"; "TRUE"; "true"] then Some true
  else if existsb (String.eqb s) ["False"; "FALSE"; "false"] then Some false
  else None.

Definition digit_char (n : nat) : ascii := ascii_of_nat (48 + n mod 10).

(** A date as [to_csv] writes it: YYYY-MM-DD. *)
Definition isoformat (d : date) : string :=
  string_of_list_ascii
    [digit_char (year d / 1000); digit_char (year d / 100);
     digit_char (year d / 10); digit_char (year d); "-"%char;
     digit_char (month d / 10); digit_char (month d); "-"%char;
     digit_char (day d / 10); digit_char (day d)].

Definition number2 (a b : ascii) : option nat :=
  match digit_of a, digit_of b with
  | Some x, Some y => Some (10 * x + y)
  | _, _ => None
  end.

(** A date field, recognised in the form YYYY-MM-DD only, the form in
    which the dates of a datetime column are written. pandas guesses one
    format from the first field of the column and reads the column as
    dates when every field has that format, so it also takes a column
    written throughout as 2024/03/01, or throughout with a time of day;
    such columns stay text here and are outside what is described. A
    column that mixes YYYY-MM-DD with another spelling stays text in
    pandas as it does here. *)
Definition parse_date (s : string) : option date :=
  match list_ascii_of_string s with
  | [y1; y2; y3; y4; h1; m1; m2; h2; d1; d2] =>
      if Ascii.eqb h1 "-" && Ascii.eqb h2 "-" then
        match number2 y1 y2, number2 y3 y4, number2 m1 m2, number2 d1 d2 with
        | Some yh, Some yl, Some m, Some d =>
            let r := mkdate (100 * yh + yl) m d in
            if valid_date r then Some r else None
        | _, _, _, _ => None
        end
      else None
  | _ => None
  end.

Definition is_some {A : Type} (o : option A) : bool :=
  match o with Some _ => true | None => false end.

(** The type a column is read with, found from all of its fields that are
    not missing: integers when all of them fit a signed, or all of them an
    unsigned, 64-bit integer; else booleans; else text. These are the kinds
    of cell the script writes. A column pandas would read as floating-point
    numbers (fields such as 1.5 or 1e5, or integers beyond these ranges) is
    kept as text here, and so is outside what is described. *)
Inductive dtype : Type := int64 | bool_ | object | datetime64.

Definition present (fields : list string) : list string :=
  filter (fun s => negb (is_na s)) fields.

Definition infer_dtype (fields : list string) : dtype :=
  if forallb (fits (- 2 ^ 63) (2 ^ 63)) (present fields) ||
     forallb (fits 0 (2 ^ 64)) (present fields) then int64
  else if forallb (fun s => is_some (parse_bool s)) (present fields) then bool_
  else object.

(** A column named in [parse_dates] is kept as text and then converted as a
    whole; it stays text when some field is no date. *)
Definition date_dtype (fields : list string) : dtype :=
  if forallb (fun s => is_some (parse_date s)) (present fields) then datetime64
  else object.

Definition convert (t : dtype) (s : string) : value :=
  if is_na s then NA
  else match t with
       | int64 => match parse_int s with Some z => Int z | None => Str s end
       | bool_ => match parse_bool s with Some b => Bool b | None => Str s end
       | datetime64 => match parse_date s with Some d => Timestamp d | None => Str s end
       | object => Str s
       end.

(** Repeated header labels are renamed (mangle_dupe_cols): a label already
    taken gets the first suffix .1, .2, ... that makes it new. *)
Definition suffixed (c : string) (k : nat) : string :=
  (c ++ "." ++ NilEmpty.string_of_uint (Nat.to_uint k))%string.

Fixpoint first_free (fuel : nat) (c : string) (taken : list string) (k : nat) : string :=
  match fuel with
  | 0 => suffixed c k
  | S fuel' =>
      if contains (suffixed c k) taken then first_free fuel' c taken (S k)
      else suffixed c k
  end.

Fixpoint mangle (taken names : list string) : list string :=
  match names with
  | [] => []
  | c :: rest =>
      let c' := if contains c taken then first_free (length taken) c taken 1 else c in
      c' :: mangle (c' :: taken) rest
  end.

Definition mangle_dupe_cols (names : list string) : list string := mangle [] names.

(** The field of a record under column [j]; a record that is too short
    lacks the field, which is read as missing. *)
Definition field (r : list string) (j : nat) : string := nth j r "".

(** The first record has more fields than the header: pandas then takes
    its leading fields, and those of every record, for index labels. *)
Definition implicit_index (f : csv) : bool :=
  match records f with
  | [] => false
  | r :: _ => length (header f) <? length r
  end.

(** [pd.read_csv(f, parse_dates=...)]: no header is an EmptyDataError, a
    [parse_dates] label that is no column a ValueError, a record after the
    first with more fields than the header a ParserError. A file with an
    implicit index is not followed any further. *)
Definition read_csv (f : csv) (parse_dates : list string) : result DataFrame :=
  match header f with
  | [] => Raise EmptyDataError
  | _ :: _ =>
      let names := mangle_dupe_cols (header f) in
      if implicit_index f then Raise Unmodelled
      else if negb (forallb (fun c => contains c names) parse_dates) then Raise ValueError
      else if existsb (fun r => length names <? length r) (records f) then Raise ParserError
      else
        let dtype_of := fun j =>
          let fields := map (fun r => field r j) (records f) in
          if contains (nth j names "") parse_dates then date_dtype fields
          else infer_dtype fields in
        let js := seq 0 (length names) in
        Ok {| columns := names;
              rows := range_index
                        (map (fun r => map (fun j => convert (dtype_of j) (field r j)) js)
                             (records f)) |}
  end.

(** How [to_csv] writes a cell; [datetime] tells whether the cell stands in
    a datetime64 column. A missing value is written as nothing. The
    Timestamps of a datetime64 column (all at midnight) are written as the
    date alone; a Timestamp that is one object among others (in a column
    that also holds [datetime.date]s or texts) is written as [str] gives
    it, with its time of day. An integer is written in decimal, as in an
    int64 column; in a column that also has missing values pandas holds
    floating-point numbers and writes 1.0, which is not described. *)
Definition render (datetime : bool) (v : value) : string :=
  match v with
  | NA | PyNone => ""
  | Timestamp d => if datetime then isoformat d else (isoformat d ++ " 00:00:00")%string
  | PyDate d => isoformat d
  | Int z => NilZero.string_of_int (Z.to_int z)
  | Str s => s
  | Bool true => "True"
  | Bool false => "False"
  end.

(** The field written for the cell in position [j] of a row of [df]. *)
Definition written_cell (df : DataFrame) (cells : list value) (j : nat) : string :=
  render (column_of is_timestamp (column df j)) (nth j cells NA).

(** [df.to_csv(path, index=False)]: the labels, then one record per row
    with one field per column; the index is not written. *)
Definition to_csv (df : DataFrame) : csv :=
  {| header := columns df;
     records := map (fun r => map (written_cell df (snd r)) (seq 0 (length (columns df))))
                    (rows df) |}.

End Pandas.

Module App.
Import Pandas.

(** ** The script *)

(** The file system as far as the script sees it: [CSV_PATH] exists, with
    some content, or it does not. *)
Definition store : Type := option csv.

Definition LEVEL_MAPPING : list (string * Z) :=
  [("Estratégica (1)", 1%Z);
   ("Operativa (2‑a)", 2%Z);
   ("Operativa (2‑b)", 2%Z);
   ("Micro (3‑a)", 3%Z);
   ("Micro (3‑b)", 3%Z);
   ("Micro (3‑c)", 3%Z)].

(** [d[k]] on a dict *)
Fixpoint dict_get (d : list (string * Z)) (k : string) : result Z :=
  match d with
  | [] => Raise KeyError
  | (k', v) :: rest => if String.eqb k k' then Ok v else dict_get rest k
  end.

Definition COLUMNS : list string := ["fecha"; "nivel"; "descripcion"; "completada"].

Definition load_data (fs : store) : result DataFrame :=
  match fs with
  | Some f =>
      df <- read_csv f ["fecha"] ;;
      let missing_cols := filter (fun c => negb (contains c (columns df))) COLUMNS in
      let df := fold_left (fun df col => setitem_scalar df col PyNone) missing_cols df in
      getitem_cols df COLUMNS
  | None => Ok (DataFrame_columns COLUMNS)
  end.

Definition save_data (df : DataFrame) : store := Some (to_csv df).

(** What the page's widgets return in one run of the script: the date
    picked, the six text inputs and the submit button of the form, and the
    state of the checkbox with key [chk_<idx>]. *)
Record widgets : Type := mkwidgets {
  selected_date : date;
  t_estrategica : string;
  t_op1 : string;
  t_op2 : string;
  t_micro1 : string;
  t_micro2 : string;
  t_micro3 : string;
  submitted : bool;
  checkbox : nat -> bool
}.

(** [df_tasks[df_tasks["fecha"] == pd.to_datetime(selected_date)].copy()] *)
Definition mask_today (df_tasks : DataFrame) (sel : date) : result (list bool) :=
  fecha <- getitem_col df_tasks "fecha" ;;
  Ok (eq_scalar fecha (Timestamp sel)).

Definition df_today (df_tasks : DataFrame) (sel : date) : result DataFrame :=
  mask <- mask_today df_tasks sel ;;
  Ok (getitem_mask df_tasks mask).

(** The two things the page can show for the selected date. *)
Inductive view : Type := CreationForm | Checklist.

Definition branch (today : DataFrame) : view :=
  if empty today then CreationForm else Checklist.

Definition new_row (sel : date) (nivel : Z) (t : string) : list (string * value) :=
  [("fecha", PyDate sel); ("nivel", Int nivel); ("descripcion", Str t);
   ("completada", Bool false)].

Definition new_rows (ui : widgets) : result (list (list (string * value))) :=
  n1 <- dict_get LEVEL_MAPPING "Estratégica (1)" ;;
  n2a <- dict_get LEVEL_MAPPING "Operativa (2‑a)" ;;
  n2b <- dict_get LEVEL_MAPPING "Operativa (2‑b)" ;;
  n3a <- dict_get LEVEL_MAPPING "Micro (3‑a)" ;;
  n3b <- dict_get LEVEL_MAPPING "Micro (3‑b)" ;;
  n3c <- dict_get LEVEL_MAPPING "Micro (3‑c)" ;;
  Ok [new_row (selected_date ui) n1 (t_estrategica ui);
      new_row (selected_date ui) n2a (t_op1 ui);
      new_row (selected_date ui) n2b (t_op2 ui);
      new_row (selected_date ui) n3a (t_micro1 ui);
      new_row (selected_date ui) n3b (t_micro2 ui);
      new_row (selected_date ui) n3c (t_micro3 ui)].

(** The [if submitted:] block of the form. *)
Definition submit_form (df_tasks : DataFrame) (ui : widgets) : result (DataFrame * store) :=
  rs <- new_rows ui ;;
  let df_tasks := concat_ignore_index df_tasks (DataFrame_records rs) in
  Ok (df_tasks, save_data df_tasks).

(** One turn of the checklist loop, for the row [(idx, row)] of
    [df_today]. *)
Definition check_row (cols : list string) (chk : nat -> bool)
    (st : DataFrame * store) (r : nat * list value) : result (DataFrame * store) :=
  completada <- row_get cols (snd r) "completada" ;;
  let done := chk (fst r) in
  if py_ne (Bool done) completada then
    df_tasks <- at_set (fst st) (fst r) "completada" done ;;
    Ok (df_tasks, save_data df_tasks)
  else Ok st.

(** [for idx, row in df_today.iterrows(): ...] *)
Definition checklist (df_tasks today : DataFrame) (fs : store) (chk : nat -> bool)
    : result (DataFrame * store) :=
  fold_left (fun acc r => st <- acc ;; check_row (columns today) chk st r)
            (iterrows today) (Ok (df_tasks, fs)).

(** The sidebar: the sorted table's first 14 rows, or nothing but a note
    when the table is empty. *)
Definition history (df_tasks : DataFrame) : result (option DataFrame) :=
  if negb (empty df_tasks) then
    df_tasks_sorted <- sort_values_desc df_tasks "fecha" ;;
    Ok (Some (head 14 df_tasks_sorted))
  else Ok None.

(** What one run of the script leaves behind: the view it showed, the table
    in memory, the file, the progress line (completed, total) of the
    checklist, and the sidebar when the run got to it ([st.rerun()] after a
    submit ends the run before). *)
Record run : Type := mkrun {
  shown : view;
  table : DataFrame;
  disk : store;
  progress : option (value * nat);
  sidebar : option (option DataFrame)
}.

(** The script from top to bottom. *)
Definition script (fs : store) (ui : widgets) : result run :=
  df_tasks <- load_data fs ;;
  today <- df_today df_tasks (selected_date ui) ;;
  match branch today with
  | CreationForm =>
      if submitted ui then
        st <- submit_form df_tasks ui ;;
        Ok {| shown := CreationForm; table := fst st; disk := snd st;
              progress := None; sidebar := None |}
      else
        h <- history df_tasks ;;
        Ok {| shown := CreationForm; table := df_tasks; disk := fs;
              progress := None; sidebar := Some h |}
  | Checklist =>
      st <- checklist df_tasks today fs (checkbox ui) ;;
      let total := len today in
      flags <- getitem_col today "completada" ;;
      completed <- sum flags ;;
      h <- history (fst st) ;;
      Ok {| shown := Checklist; table := fst st; disk := snd st;
            progress := Some (completed, total); sidebar := Some h |}
  end.

End App.

Import Pandas App.

(** ** Vocabulary of the properties *)

(** The cell of a row under a label (missing when there is no such
    column). *)
Definition cell (cols : list string) (r : nat * list value) (c : string) : value :=
  match row_get cols (snd r) c with
  | Ok v => v
  | Raise _ => NA
  end.

(** The shape of the table the script works on: the four columns, a cell
    for each in every row, and the default index 0, 1, 2, ... *)
Definition tidy (df : DataFrame) : Prop :=
  columns df = COLUMNS /\
  Forall (fun r => length (snd r) = 4) (rows df) /\
  index df = seq 0 (len df).

(** A row is for the selected date. *)
Definition on_date (sel : date) (cols : list string) (r : nat * list value) : bool :=
  py_eq (cell cols r "fecha") (Timestamp sel).

(** The task a row records: its date, level and description. *)
Definition task_of (cols : list string) (r : nat * list value) : value * value * value :=
  (cell cols r "fecha", cell cols r "nivel", cell cols r "descripcion").

Definition tasks (df : DataFrame) : list (value * value * value) :=
  map (task_of (columns df)) (rows df).

(** A task entry of the data model, as [load_data] gives it: a calendar
    date held as a pandas Timestamp, a level 1, 2 or 3, a text and a flag.
    The rows the submit block has just built are not of this form, they
    hold a [datetime.date] under fecha. *)
Definition valid_entry (cells : list value) : Prop :=
  exists d n s b,
    cells = [Timestamp d; Int n; Str s; Bool b] /\
    valid_date d = true /\ (1 <= n <= 3)%Z.

Definition valid_table (T : DataFrame) : Prop :=
  columns T = COLUMNS /\
  index T = seq 0 (len T) /\
  Forall (fun r => valid_entry (snd r)) (rows T).

(** Text without control characters: no line end, no tab, nothing below
    the blank. Such a text is written to the file and found there again as
    one field. *)
Definition printable (s : string) : bool :=
  forallb (fun a => 32 <=? nat_of_ascii a) (list_ascii_of_string s).

Definition lower (a : ascii) : ascii :=
  let n := nat_of_ascii a in
  if (65 <=? n) && (n <=? 90) then ascii_of_nat (n + 32) else a.

Definition number_like (s : string) : bool :=
  match trim (list_ascii_of_string s) with
  | [] => true
  | a :: rest =>
      is_some (digit_of a) ||
      existsb (Ascii.eqb a) ["+"%char; "-"%char; "."%char] ||
      existsb (String.eqb (string_of_list_ascii (map lower (a :: rest))))
              ["inf"; "infinity"; "nan"]
  end.

Definition plain_text (s : string) : bool :=
  printable s &&
  negb (is_na s) && negb (is_some (parse_bool s)) && negb (number_like s).

(** No text of the table, under whatever column, has a control
    character. *)
Definition printable_cell (v : value) : bool :=
  match v with
  | Str s => printable s
  | _ => true
  end.

Definition printable_table (df : DataFrame) : Prop :=
  Forall (fun r => forallb printable_cell (snd r) = true) (rows df).

(** Nor has any text typed into the form. *)
Definition printable_form (ui : widgets) : bool :=
  printable (t_estrategica ui) && printable (t_op1 ui) && printable (t_op2 ui) &&
  printable (t_micro1 ui) && printable (t_micro2 ui) && printable (t_micro3 ui).

(** The completada cells are truth values, as the script writes them and
    as [read_csv] gives them for a column of True and False. *)
Definition bool_flags (df : DataFrame) : Prop :=
  forall r, In r (rows df) -> exists b, cell (columns df) r "completada" = Bool b.

(** What storing a truth value under completada meets in a table of the
    four columns: nothing when the column takes it. *)
Definition refusal (df : DataFrame) : option exn :=
  if column_of is_number (column df 3) then Some TypeError
  else if column_of is_timestamp (column df 3) || column_of is_text (column df 3)
       then Some Unmodelled
  else None.

Definition plain_descriptions (T : DataFrame) : Prop :=
  forall r s, In r (rows T) -> cell (columns T) r "descripcion" = Str s ->
              plain_text s = true.

(** The fecha cells are dates or missing. *)
Definition is_dated (v : value) : Prop :=
  match v with
  | Timestamp _ | NA => True
  | _ => False
  end.

Definition dated (df : DataFrame) : Prop :=
  forall r, In r (rows df) -> is_dated (cell (columns df) r "fecha").

(** A stored file that has a column of notes besides the four. *)
Definition file_with_notes : csv :=
  {| header := ["nota"; "fecha"; "nivel"; "descripcion"; "completada"];
     records := [["urgente"; "2024-03-01"; "1"; "Cerrar el informe"; "False"];
                 ["";        "2024-03-01"; "2"; "Llamar al banco";  "True"]] |}.

(** A stored file that lacks the fecha column. *)
Definition file_without_fecha : csv :=
  {| header := ["nivel"; "descripcion"; "completada"];
     records := [["1"; "Cerrar el informe"; "False"]] |}.

(** The six rows of a new day as the form describes them: one level-1
    task, two of level 2, three of level 3, none completed. *)
Definition day_rows (ui : widgets) : list (list value) :=
  let sel := selected_date ui in
  [[PyDate sel; Int 1; Str (t_estrategica ui); Bool false];
   [PyDate sel; Int 2; Str (t_op1 ui); Bool false];
   [PyDate sel; Int 2; Str (t_op2 ui); Bool false];
   [PyDate sel; Int 3; Str (t_micro1 ui); Bool false];
   [PyDate sel; Int 3; Str (t_micro2 ui); Bool false];
   [PyDate sel; Int 3; Str (t_micro3 ui); Bool false]].

(** The checkbox of a row of [ts] with index label [i] differs from the
    row's stored flag, so that the loop writes the flag. *)
Definition differs (chk : nat -> bool) (t : nat * list value) : bool :=
  py_ne (Bool (chk (fst t))) (cell COLUMNS t "completada").

Definition toggles (chk : nat -> bool) (ts : list (nat * list value)) (i : nat) : bool :=
  existsb (fun t => (fst t =? i) && differs chk t) ts.

(** A row after the loop: its flag is the checkbox's state when the box was
    toggled, and nothing else changes. *)
Definition checked (chk : nat -> bool) (ts : list (nat * list value))
    (r : nat * list value) : nat * list value :=
  if toggles chk ts (fst r)
  then (fst r, set_at [3] 0 (Bool (chk (fst r))) (snd r))
  else r.

(** A stored table of two rows for 1 March 2024, the first done, and the
    widgets of a run in which the second row's box has just been ticked. *)
Definition file_march : csv :=
  {| header := ["fecha"; "nivel"; "descripcion"; "completada"];
     records := [["2024-03-01"; "1"; "Cerrar el informe"; "True"];
                 ["2024-03-01"; "2"; "Llamar al banco"; "False"]] |}.

Definition ui_march : widgets :=
  mkwidgets (mkdate 2024 3 1) "" "" "" "" "" "" false (fun _ => true).

(** The widgets of a run that submits the form for 2 March 2024. *)
Definition ui_submit : widgets :=
  mkwidgets (mkdate 2024 3 2) "Cerrar el informe" "" "Llamar al banco"
            "Regar" "Correo" "Compra" true (fun _ => false).

(** How recent a fecha cell is: a date by its place in the calendar, a
    missing value before all dates (it is sorted last). *)
Definition recency (v : value) : Z :=
  match v with
  | Timestamp d => ordinal d
  | _ => (-1)%Z
  end.

(** The table read from [file_march]. *)
Definition table_march : DataFrame :=
  {| columns := COLUMNS;
     rows := [(0, [Timestamp (mkdate 2024 3 1); Int 1;
                   Str "Cerrar el informe"; Bool true]);
              (1, [Timestamp (mkdate 2024 3 1); Int 2;
                   Str "Llamar al banco"; Bool false])] |}.


(** The fields written under column [j] of a table, row by row. *)
Definition written (df : DataFrame) (j : nat) : list string :=
  map (fun r => written_cell df (snd r) j) (rows df).

(** A row of the four columns as it is read back from the file written
    from [df]: each cell goes through its text, and the type of a column
    is found from the whole column. *)
Definition reread (df : DataFrame) (cells : list value) : list value :=
  [convert (date_dtype (written df 0)) (written_cell df cells 0);
   convert (infer_dtype (written df 1)) (written_cell df cells 1);
   convert (infer_dtype (written df 2)) (written_cell df cells 2);
   convert (infer_dtype (written df 3)) (written_cell df cells 3)].

(** A fecha cell that is written as a date or as nothing: missing, or a
    date of the calendar, as a Timestamp or as a [datetime.date]. *)
Definition date_cell (v : value) : Prop :=
  match v with
  | NA => True
  | Timestamp d | PyDate d => valid_date d = true
  | _ => False
  end.

(** What such a cell is read back as. *)
Definition as_timestamp (v : value) : value :=
  match v with
  | PyDate d => Timestamp d
  | _ => v
  end.

(** A row whose stored flag is True. *)
Definition done_flag (r : nat * list value) : bool :=
  py_eq (cell COLUMNS r "completada") (Bool true).

(** The records of the file after a submit, field by field. A task that
    was in the table, with a Timestamp under fecha, is written with the
    time of day, because the column now also holds the [datetime.date]s of
    the new rows; the six new tasks are written with the date alone. *)
Definition level_text (n : Z) : string :=
  match n with
  | 1%Z => "1"
  | 2%Z => "2"
  | 3%Z => "3"
  | _ => ""
  end.

Definition flag_text (b : bool) : string := if b then "True" else "False".

Definition stored_record (r : nat * list value) : list string :=
  match snd r with
  | [Timestamp d; Int n; Str s; Bool b] =>
      [(isoformat d ++ " 00:00:00")%string; level_text n; s; flag_text b]
  | _ => []
  end.

Definition form_records (ui : widgets) : list (list string) :=
  let day := isoformat (selected_date ui) in
  [[day; "1"; t_estrategica ui; "False"];
   [day; "2"; t_op1 ui; "False"];
   [day; "2"; t_op2 ui; "False"];
   [day; "3"; t_micro1 ui; "False"];
   [day; "3"; t_micro2 ui; "False"];
   [day; "3"; t_micro3 ui; "False"]].

(** A stored file whose flags are written 1 and 0. *)
Definition file_numbers : csv :=
  {| header := ["fecha"; "nivel"; "descripcion"; "completada"];
     records := [["2024-03-01"; "1"; "Cerrar el informe"; "1"];
                 ["2024-03-01"; "2"; "Llamar al banco"; "0"]] |}.

(** A stored file in which one fecha field is no date. *)
Definition file_bad_date : csv :=
  {| header := ["fecha"; "nivel"; "descripcion"; "completada"];
     records := [["2024-03-01"; "1"; "Cerrar el informe"; "True"];
                 ["mañana"; "2"; "Llamar al banco"; "False"]] |}.

(** * Properties *)

(** ** Labels and positions *)

Lemma contains_In (c : string) (cols : list string) :
  contains c cols = true <-> In c cols.
Proof.
  unfold contains. rewrite existsb_exists. split.
  - intros [x [Hin Heq]]. apply String.eqb_eq in Heq. now subst.
  - intros Hin. exists c. split; [assumption | apply String.eqb_refl].
Qed.

Lemma contains_false (c : string) (cols : list string) :
  contains c cols = false <-> ~ In c cols.
Proof.
  rewrite <- contains_In. destruct (contains c cols); split; congruence.
Qed.

Lemma positions_from_none (n : nat) (c : string) (cols : list string) :
  ~ In c cols -> positions_from n c cols = [].
Proof.
  revert n. induction cols as [| x rest IH]; intros n Hnot; simpl.
  - reflexivity.
  - destruct (String.eqb_spec c x) as [-> | Hne].
    + exfalso. apply Hnot. now left.
    + apply IH. intros Hin. apply Hnot. now right.
Qed.

Lemma positions_from_some (n : nat) (c : string) (cols : list string) :
  In c cols -> positions_from n c cols <> [].
Proof.
  revert n. induction cols as [| x rest IH]; intros n Hin; simpl.
  - contradiction.
  - destruct (String.eqb_spec c x) as [-> | Hne]; [discriminate |].
    destruct Hin as [Heq | Hin]; [congruence | now apply IH].
Qed.

Lemma positions_from_nodup (n : nat) (c : string) (cols : list string) :
  NoDup cols -> In c cols ->
  exists i, positions_from n c cols = [n + i] /\ i < length cols /\ nth i cols "" = c.
Proof.
  revert n. induction cols as [| x rest IH]; intros n Hnd Hin.
  - contradiction.
  - inversion Hnd as [| ? ? Hx Hrest]; subst. simpl.
    destruct (String.eqb_spec c x) as [-> | Hne].
    + exists 0. rewrite (positions_from_none _ _ _ Hx). simpl.
      rewrite Nat.add_0_r. repeat split. lia.
    + destruct Hin as [Heq | Hin]; [congruence |].
      destruct (IH (S n) Hrest Hin) as [i [Hp [Hlt Hnth]]].
      exists (S i). rewrite Hp. simpl. repeat split; try lia; try assumption.
      f_equal. lia.
Qed.

Lemma positions_nodup (c : string) (cols : list string) :
  NoDup cols -> In c cols ->
  exists i, positions c cols = [i] /\ i < length cols /\ nth i cols "" = c.
Proof.
  intros Hnd Hin. destruct (positions_from_nodup 0 c cols Hnd Hin) as [i H].
  exists i. exact H.
Qed.

(** The position of the [i]-th of distinct labels is [i]. *)
Lemma positions_nth (i : nat) (cols : list string) :
  NoDup cols -> i < length cols -> positions (nth i cols "") cols = [i].
Proof.
  intros Hnd Hlt.
  destruct (positions_nodup (nth i cols "") cols Hnd (nth_In _ _ Hlt)) as [j [Hp [Hj Hnth]]].
  rewrite Hp. f_equal.
  rewrite (NoDup_nth cols "") in Hnd. symmetry.
  apply Hnd; [assumption | assumption | now symmetry].
Qed.

(** ** Renaming repeated header labels *)

Lemma append_inj_l (c s1 s2 : string) :
  (c ++ s1)%string = (c ++ s2)%string -> s1 = s2.
Proof.
  induction c as [| a c IH]; simpl; intros H.
  - assumption.
  - injection H as H. auto.
Qed.

Lemma string_of_uint_inj (d1 d2 : Decimal.uint) :
  NilEmpty.string_of_uint d1 = NilEmpty.string_of_uint d2 -> d1 = d2.
Proof.
  intros H.
  assert (Some d1 = Some d2) as E
    by (rewrite <- (NilEmpty.usu d1), <- (NilEmpty.usu d2); now rewrite H).
  now injection E.
Qed.

Lemma suffixed_inj (c : string) (j k : nat) :
  suffixed c j = suffixed c k -> j = k.
Proof.
  unfold suffixed. intros H.
  apply append_inj_l in H. apply (append_inj_l ".") in H.
  apply string_of_uint_inj in H. now apply Unsigned.to_uint_inj.
Qed.

Lemma first_free_taken (c : string) (taken : list string) (fuel k : nat) :
  In (first_free fuel c taken k) taken ->
  forall j, k <= j <= k + fuel -> In (suffixed c j) taken.
Proof.
  revert k. induction fuel as [| fuel IH]; intros k Hin j Hj; simpl in Hin.
  - replace j with k by lia. assumption.
  - destruct (contains (suffixed c k) taken) eqn:E.
    + destruct (Nat.eq_dec j k) as [-> | Hne].
      * now apply contains_In.
      * apply (IH (S k) Hin). lia.
    + apply contains_false in E. contradiction.
Qed.

Lemma first_free_fresh (c : string) (taken : list string) (k : nat) :
  ~ In (first_free (length taken) c taken k) taken.
Proof.
  intros Hin.
  pose proof (first_free_taken c taken (length taken) k Hin) as Hall.
  assert (NoDup (map (suffixed c) (seq k (S (length taken))))) as Hnd.
  { apply Injective_map_NoDup; [| apply seq_NoDup].
    intros x y. apply suffixed_inj. }
  assert (incl (map (suffixed c) (seq k (S (length taken)))) taken) as Hincl.
  { intros x Hx. apply in_map_iff in Hx. destruct Hx as [j [<- Hj]].
    apply in_seq in Hj. apply Hall. lia. }
  pose proof (NoDup_incl_length Hnd Hincl) as Hlen.
  rewrite length_map, length_seq in Hlen. lia.
Qed.

Lemma mangle_fresh (names taken : list string) :
  (forall x, In x (mangle taken names) -> ~ In x taken) /\ NoDup (mangle taken names).
Proof.
  revert taken. induction names as [| c rest IH]; intros taken; simpl.
  - split; [intros x [] | constructor].
  - set (c' := if contains c taken then first_free (length taken) c taken 1 else c).
    assert (~ In c' taken) as Hc'.
    { unfold c'. destruct (contains c taken) eqn:E.
      - apply first_free_fresh.
      - now apply contains_false. }
    destruct (IH (c' :: taken)) as [Hfresh Hnd]. split.
    + intros x [<- | Hx]; [assumption |].
      intros Hin. apply (Hfresh x Hx). now right.
    + constructor; [| assumption].
      intros Hin. apply (Hfresh c' Hin). now left.
Qed.

Lemma mangle_dupe_cols_NoDup (names : list string) : NoDup (mangle_dupe_cols names).
Proof. apply mangle_fresh. Qed.

Lemma mangle_length (names taken : list string) :
  length (mangle taken names) = length names.
Proof.
  revert taken. induction names as [| c rest IH]; intros taken; simpl; auto.
Qed.

(** ** The default index *)

Lemma range_index_fst (cells : list (list value)) :
  map fst (range_index cells) = seq 0 (length cells).
Proof.
  unfold range_index. generalize 0.
  induction cells as [| c rest IH]; intros n; simpl; [reflexivity |].
  now rewrite IH.
Qed.

Lemma range_index_snd (cells : list (list value)) :
  map snd (range_index cells) = cells.
Proof.
  unfold range_index. generalize 0.
  induction cells as [| c rest IH]; intros n; simpl; [reflexivity |].
  now rewrite IH.
Qed.

Lemma range_index_length (cells : list (list value)) :
  length (range_index cells) = length cells.
Proof. rewrite <- (length_map fst), range_index_fst. apply length_seq. Qed.

Lemma range_index_app_from (n : nat) (xs ys : list (list value)) :
  combine (seq n (length (xs ++ ys))) (xs ++ ys) =
  combine (seq n (length xs)) xs ++ combine (seq (n + length xs) (length ys)) ys.
Proof.
  revert n. induction xs as [| x rest IH]; intros n; simpl.
  - now rewrite Nat.add_0_r.
  - rewrite IH. now replace (n + S (length rest)) with (S n + length rest) by lia.
Qed.

(** A list of rows with the default index is the default index put on its
    cells. *)
Lemma range_index_rows (rs : list (nat * list value)) :
  map fst rs = seq 0 (length rs) -> range_index (map snd rs) = rs.
Proof.
  unfold range_index. rewrite length_map. generalize 0.
  induction rs as [| [i c] rest IH]; intros n H; simpl in *; [reflexivity |].
  injection H as -> H. now rewrite IH.
Qed.

(** ** What [read_csv] returns *)

Lemma read_csv_shape (f : csv) (parse_dates : list string) (df : DataFrame) :
  read_csv f parse_dates = Ok df ->
  NoDup (columns df) /\ rectangular df /\ index df = seq 0 (len df) /\
  len df = length (records f) /\
  forall c, In c parse_dates -> In c (columns df).
Proof.
  unfold read_csv. destruct (header f) as [| h0 hs] eqn:Hh; [discriminate |].
  rewrite <- Hh. clear Hh.
  destruct (implicit_index f); [discriminate |].
  destruct (forallb _ parse_dates) eqn:Hpd; cbn [negb]; [| discriminate].
  destruct (existsb _ (records f)); [discriminate |].
  intros [= <-]. unfold rectangular, index, len. cbn [columns rows].
  repeat split.
  - apply mangle_dupe_cols_NoDup.
  - rewrite Forall_forall. intros r Hr.
    apply (in_map snd) in Hr. rewrite range_index_snd in Hr.
    apply in_map_iff in Hr. destruct Hr as [x [Hx _]].
    rewrite <- Hx. now rewrite length_map, length_seq.
  - now rewrite range_index_fst, range_index_length.
  - now rewrite range_index_length, length_map.
  - intros c Hc. rewrite forallb_forall in Hpd. apply contains_In. now apply Hpd.
Qed.

(** ** Filling in columns and selecting them *)

Lemma setitem_new (df : DataFrame) (col : string) (v : value) :
  ~ In col (columns df) ->
  setitem_scalar df col v =
  {| columns := columns df ++ [col];
     rows := map (fun r => (fst r, snd r ++ [v])) (rows df) |}.
Proof.
  intros H. unfold setitem_scalar. apply contains_false in H. now rewrite H.
Qed.

Lemma backfill (ms : list string) (df : DataFrame) :
  NoDup ms -> (forall m, In m ms -> ~ In m (columns df)) ->
  fold_left (fun df col => setitem_scalar df col PyNone) ms df =
  {| columns := columns df ++ ms;
     rows := map (fun r => (fst r, snd r ++ repeat PyNone (length ms))) (rows df) |}.
Proof.
  revert df. induction ms as [| m rest IH]; intros df Hnd Hnew; simpl.
  - destruct df as [cols rs]. simpl. rewrite app_nil_r. f_equal.
    rewrite <- (map_id rs) at 1. apply map_ext. intros [i c]. simpl.
    now rewrite app_nil_r.
  - inversion Hnd as [| ? ? Hm Hrest]; subst.
    rewrite setitem_new by (apply Hnew; now left).
    rewrite IH; [| assumption |].
    + simpl. rewrite <- app_assoc. simpl. f_equal. rewrite map_map.
      apply map_ext. intros r. simpl. now rewrite <- app_assoc.
    + intros x Hx. simpl. rewrite in_app_iff. intros [Hin | [-> | []]].
      * apply (Hnew x); [now right | assumption].
      * contradiction.
Qed.

Lemma select_positions (cols labels : list string) :
  NoDup cols -> (forall c, In c labels -> In c cols) ->
  map (fun p => nth p cols "") (flat_map (fun c => positions c cols) labels) = labels /\
  forall cells : list value,
    map (fun p => nth p cells NA) (flat_map (fun c => positions c cols) labels) =
    reindex_cells cols labels cells.
Proof.
  intros Hnd. induction labels as [| c rest IH]; intros Hin; simpl.
  - split; [reflexivity | intros; reflexivity].
  - destruct (positions_nodup c cols Hnd (Hin c (or_introl eq_refl)))
      as [i [Hp [Hlt Hnth]]].
    destruct IH as [IH1 IH2]; [intros x Hx; apply Hin; now right |].
    rewrite Hp. simpl. split.
    + now rewrite Hnth, IH1.
    + intros cells. now rewrite IH2.
Qed.

Lemma getitem_cols_nodup (df : DataFrame) (labels : list string) :
  NoDup (columns df) -> (forall c, In c labels -> In c (columns df)) ->
  getitem_cols df labels =
  Ok {| columns := labels;
        rows := map (fun r => (fst r, reindex_cells (columns df) labels (snd r))) (rows df) |}.
Proof.
  intros Hnd Hin. unfold getitem_cols.
  replace (forallb _ labels) with true.
  - destruct (select_positions (columns df) labels Hnd Hin) as [H1 H2].
    rewrite H1. do 2 f_equal. apply map_ext. intros r. now rewrite H2.
  - symmetry. apply forallb_forall. intros c Hc. apply contains_In. now apply Hin.
Qed.

Lemma reindex_cells_length (old new : list string) (cells : list value) :
  length (reindex_cells old new cells) = length new.
Proof. unfold reindex_cells. apply length_map. Qed.

(** ** What [load_data] returns *)

Lemma COLUMNS_NoDup : NoDup COLUMNS.
Proof.
  unfold COLUMNS. repeat constructor; simpl; intuition discriminate.
Qed.

Lemma load_data_read (f : csv) (raw : DataFrame) :
  read_csv f ["fecha"] = Ok raw ->
  let missing_cols := filter (fun c => negb (contains c (columns raw))) COLUMNS in
  load_data (Some f) =
  Ok {| columns := COLUMNS;
        rows := map (fun r => (fst r,
                               reindex_cells (columns raw ++ missing_cols) COLUMNS
                                 (snd r ++ repeat PyNone (length missing_cols))))
                    (rows raw) |}.
Proof.
  intros Hread missing_cols. unfold load_data. rewrite Hread.
  unfold bind. fold missing_cols.
  destruct (read_csv_shape _ _ _ Hread) as [Hnd _].
  assert (NoDup missing_cols) as Hms by (apply NoDup_filter, COLUMNS_NoDup).
  assert (forall m, In m missing_cols -> ~ In m (columns raw)) as Hnew.
  { intros m Hm. apply filter_In in Hm. destruct Hm as [_ Hm].
    apply contains_false. now destruct (contains m (columns raw)). }
  rewrite (backfill missing_cols raw Hms Hnew).
  rewrite getitem_cols_nodup.
  - simpl. do 2 f_equal. rewrite map_map. reflexivity.
  - simpl. apply NoDup_app; try assumption.
    intros x Hx Hx'. exact (Hnew x Hx' Hx).
  - simpl. intros c Hc. rewrite in_app_iff.
    destruct (contains c (columns raw)) eqn:E.
    + left. now apply contains_In.
    + right. apply filter_In. split; [assumption | now rewrite E].
Qed.

Lemma load_data_tidy (fs : store) (df : DataFrame) :
  load_data fs = Ok df -> tidy df.
Proof.
  destruct fs as [f |].
  - destruct (read_csv f ["fecha"]) as [raw | e] eqn:Hread.
    + rewrite (load_data_read f raw Hread). intros [= <-].
      destruct (read_csv_shape _ _ _ Hread) as [_ [_ [Hidx _]]].
      unfold tidy, index, len in *. simpl. repeat split.
      * rewrite Forall_forall. intros r Hr. apply in_map_iff in Hr.
        destruct Hr as [x [<- _]]. reflexivity.
      * rewrite map_map. simpl. now rewrite length_map.
    + unfold load_data. rewrite Hread. discriminate.
  - intros [= <-]. unfold tidy, index, len. simpl. repeat split. constructor.
Qed.

Lemma positions_from_ge (n : nat) (c : string) (cols : list string) (p : nat) :
  In p (positions_from n c cols) -> n <= p.
Proof.
  revert n. induction cols as [| x rest IH]; intros n; simpl; [contradiction |].
  destruct (String.eqb c x); [intros [<- | H] |intros H];
    try lia; apply IH in H; lia.
Qed.

Lemma positions_from_lt (n : nat) (c : string) (cols : list string) (p : nat) :
  In p (positions_from n c cols) -> p < n + length cols.
Proof.
  revert n. induction cols as [| x rest IH]; intros n; simpl; [contradiction |].
  destruct (String.eqb c x); [intros [<- | H] |intros H];
    try lia; apply IH in H; lia.
Qed.

Lemma nth_repeat_lt {B : Type} (a d : B) (k n : nat) :
  n < k -> nth n (repeat a k) d = a.
Proof.
  revert n. induction k as [| k IH]; intros n H; [lia |].
  destruct n as [| n]; simpl; [reflexivity | apply IH; lia].
Qed.

Lemma positions_from_app (n : nat) (c : string) (l1 l2 : list string) :
  positions_from n c (l1 ++ l2) =
  positions_from n c l1 ++ positions_from (n + length l1) c l2.
Proof.
  revert n. induction l1 as [| x rest IH]; intros n; simpl.
  - now rewrite Nat.add_0_r.
  - rewrite IH. replace (S n + length rest) with (n + S (length rest)) by lia.
    now destruct (String.eqb c x).
Qed.

Lemma cell_reindex (old labels : list string) (cells : list value) (i : nat) (c : string) :
  NoDup labels -> In c labels ->
  cell labels (i, reindex_cells old labels cells) c =
  match positions c old with
  | [] => NA
  | p :: _ => nth p cells NA
  end.
Proof.
  intros Hnd Hin. destruct (positions_nodup c labels Hnd Hin) as [j [Hp [Hlt Hnth]]].
  unfold cell, row_get. rewrite Hp. cbn [snd]. unfold reindex_cells.
  rewrite (nth_indep _ NA
             (match positions "" old with [] => NA | p :: _ => nth p cells NA end))
    by now rewrite length_map.
  rewrite (map_nth (fun c => match positions c old with
                             | [] => NA
                             | p :: _ => nth p cells NA
                             end)).
  now rewrite Hnth.
Qed.

(** What does hold of C4: when [read_csv] reads the file (so fecha is
    there), every one of the four columns the file lacks is in the table,
    with [None] in every row. *)
Lemma load_data_backfills (f : csv) (raw : DataFrame) :
  read_csv f ["fecha"] = Ok raw ->
  exists df,
    load_data (Some f) = Ok df /\ len df = length (records f) /\
    forall c, In c COLUMNS -> ~ In c (columns raw) ->
              forall r, In r (rows df) -> cell (columns df) r c = PyNone.
Proof.
  intros Hread. eexists. split; [apply (load_data_read f raw Hread) |].
  destruct (read_csv_shape _ _ _ Hread) as [_ [Hrect [_ [Hlen _]]]].
  unfold len in *. cbn [rows columns]. split; [now rewrite length_map |].
  intros c Hc Hnew r Hr. apply in_map_iff in Hr. destruct Hr as [x [<- Hx]].
  rewrite (cell_reindex _ _ _ _ _ COLUMNS_NoDup Hc).
  unfold positions. rewrite positions_from_app.
  rewrite (positions_from_none 0 c (columns raw) Hnew). cbn [app].
  destruct (positions_from _ c _) as [| p ps] eqn:Hp.
  { exfalso. revert Hp. apply positions_from_some. apply filter_In.
    split; [assumption |]. apply contains_false in Hnew. now rewrite Hnew. }
  assert (0 + length (columns raw) <= p) as Hge
    by (eapply positions_from_ge; rewrite Hp; now left).
  unfold rectangular in Hrect. rewrite Forall_forall in Hrect.
  assert (p < 0 + length (columns raw) +
              length (filter (fun c => negb (contains c (columns raw))) COLUMNS)) as Hlt
    by (eapply positions_from_lt; rewrite Hp; now left).
  rewrite app_nth2 by (rewrite (Hrect x Hx); lia).
  apply nth_repeat_lt. rewrite (Hrect x Hx). lia.
Qed.

(** C9: whenever [load_data] returns (the file is absent, or pandas can read
    it), the table has exactly the four columns fecha, nivel, descripcion,
    completada in that order and every row has exactly these four cells, so
    any other column of the stored file is gone. *)
Theorem load_data_columns (fs : store) :
  (fs = None \/ exists f raw, fs = Some f /\ read_csv f ["fecha"] = Ok raw) ->
  exists df, load_data fs = Ok df /\ columns df = COLUMNS /\ rectangular df.
Proof.
  intros H.
  assert (exists df, load_data fs = Ok df) as [df Hdf].
  { destruct H as [-> | [f [raw [-> Hread]]]].
    - eexists. reflexivity.
    - eexists. apply (load_data_read f raw Hread). }
  exists df. destruct (load_data_tidy fs df Hdf) as [Hcols [Hrows _]].
  repeat split; try assumption.
  unfold rectangular. now rewrite Hcols.
Qed.

Lemma load_data_columns_witness :
  exists df, load_data (Some file_with_notes) = Ok df /\
             columns df = COLUMNS /\ rectangular df.
Proof.
  apply (load_data_columns (Some file_with_notes)).
  right. eexists. eexists. split; [reflexivity | vm_compute; reflexivity].
Defined.

(** C7: when the CSV file does not exist, [load_data] raises nothing and
    returns the table with the four columns and no rows. *)
Theorem load_data_no_file :
  exists df, load_data None = Ok df /\ columns df = COLUMNS /\ rows df = [].
Proof. eexists. repeat split. Qed.

(** C4, at a file that lacks the fecha column: [read_csv] is told to parse
    fecha as dates and raises ValueError, so [load_data] never gets to fill
    the column in. *)
Theorem load_data_without_fecha_raises :
  load_data (Some file_without_fecha) = Raise ValueError.
Proof. reflexivity. Qed.

(** ** Filtering by date *)

Lemma select_rows_filter {A : Type} (f : A -> bool) (l : list A) :
  select_rows (map f l) l = filter f l.
Proof.
  induction l as [| x rest IH]; simpl; [reflexivity |].
  destruct (f x); now rewrite IH.
Qed.

Lemma df_today_rows (df : DataFrame) (sel : date) :
  In "fecha" (columns df) ->
  df_today df sel =
  Ok {| columns := columns df;
        rows := filter (on_date sel (columns df)) (rows df) |}.
Proof.
  intros Hin. unfold df_today, mask_today, getitem_col, getitem_mask.
  destruct (positions "fecha" (columns df)) as [| p ps] eqn:Hp.
  - exfalso. exact (positions_from_some 0 _ _ Hin Hp).
  - unfold bind, eq_scalar. rewrite map_map. do 2 f_equal.
    rewrite select_rows_filter. apply filter_ext. intros r.
    unfold on_date, cell, row_get. now rewrite Hp.
Qed.

(** C5: for every table (with its fecha column) and selected date, the
    rows shown for the day are those whose fecha equals the date; when
    there are none the page takes the creation form, when there is at
    least one it takes the checklist. *)
Theorem view_follows_filter (df : DataFrame) (sel : date) :
  In "fecha" (columns df) ->
  exists today,
    df_today df sel = Ok today /\
    rows today = filter (on_date sel (columns df)) (rows df) /\
    (len today = 0 -> branch today = CreationForm) /\
    (0 < len today -> branch today = Checklist).
Proof.
  intros Hin. eexists. split; [apply (df_today_rows df sel Hin) |].
  unfold branch, empty, len. simpl. split; [reflexivity |].
  destruct (columns df) as [| c cols]; [contradiction |].
  destruct (filter _ (rows df)); simpl; split; intros H;
    try reflexivity; try discriminate; lia.
Qed.

Lemma view_follows_filter_witness :
  (exists today,
     df_today table_march (mkdate 2024 3 1) = Ok today /\
     rows today = rows table_march /\ branch today = Checklist) /\
  (exists today,
     df_today table_march (mkdate 2024 3 2) = Ok today /\
     rows today = [] /\ branch today = CreationForm).
Proof.
  split.
  - destruct (view_follows_filter table_march (mkdate 2024 3 1))
      as [today [Hrun [Hrows [_ Hsome]]]]; [now left |].
    exists today. split; [exact Hrun |]. split; [exact Hrows |].
    apply Hsome. unfold len. rewrite Hrows. repeat constructor.
  - destruct (view_follows_filter table_march (mkdate 2024 3 2))
      as [today [Hrun [Hrows [Hnone _]]]]; [now left |].
    exists today. split; [exact Hrun |]. split; [exact Hrows |].
    apply Hnone. unfold len. now rewrite Hrows.
Defined.

(** The view a run of the script shows is the one [branch] picks for the
    rows of the selected date. *)
Lemma script_shown (fs : store) (ui : widgets) (r : run) :
  script fs ui = Ok r ->
  exists df today,
    load_data fs = Ok df /\ df_today df (selected_date ui) = Ok today /\
    shown r = branch today.
Proof.
  unfold script. destruct (load_data fs) as [df | e] eqn:Hload; [| discriminate].
  cbn [bind].
  destruct (df_today df (selected_date ui)) as [today | e] eqn:Htoday;
    [| discriminate].
  cbn [bind]. intros H. exists df, today.
  split; [reflexivity | split; [assumption |]].
  destruct (branch today).
  - destruct (submitted ui).
    + destruct (submit_form df ui); [| discriminate]. cbn [bind] in H.
      now injection H as <-.
    + destruct (history df); [| discriminate]. cbn [bind] in H.
      now injection H as <-.
  - destruct (checklist df today fs (checkbox ui)) as [st | e]; [| discriminate].
    cbn [bind] in H.
    destruct (getitem_col today "completada"); [| discriminate]. cbn [bind] in H.
    destruct (sum a); [| discriminate]. cbn [bind] in H.
    destruct (history (fst st)); [| discriminate]. cbn [bind] in H.
    now injection H as <-.
Qed.

(** ** Rows of a tidy table *)

Lemma tidy_cells (df : DataFrame) (r : nat * list value) :
  tidy df -> In r (rows df) ->
  exists f n d c, snd r = [f; n; d; c].
Proof.
  intros [_ [Hrows _]] Hr. rewrite Forall_forall in Hrows.
  specialize (Hrows r Hr). destruct (snd r) as [| f [| n [| d [| c [| x rest]]]]];
    try discriminate. now exists f, n, d, c.
Qed.

Lemma reindex_cells_same (cells : list value) :
  length cells = 4 -> reindex_cells COLUMNS COLUMNS cells = cells.
Proof.
  destruct cells as [| f [| n [| d [| c [| x rest]]]]]; try discriminate.
  reflexivity.
Qed.

(** ** Submitting the form *)

Lemma new_rows_eq (ui : widgets) :
  new_rows ui =
  Ok [new_row (selected_date ui) 1 (t_estrategica ui);
      new_row (selected_date ui) 2 (t_op1 ui);
      new_row (selected_date ui) 2 (t_op2 ui);
      new_row (selected_date ui) 3 (t_micro1 ui);
      new_row (selected_date ui) 3 (t_micro2 ui);
      new_row (selected_date ui) 3 (t_micro3 ui)].
Proof. reflexivity. Qed.

Lemma DataFrame_new_rows (ui : widgets) (rs : list (list (string * value))) :
  new_rows ui = Ok rs ->
  DataFrame_records rs =
  {| columns := COLUMNS; rows := combine (seq 0 6) (day_rows ui) |}.
Proof. rewrite new_rows_eq. intros [= <-]. reflexivity. Qed.

Lemma submit_form_tidy (df : DataFrame) (ui : widgets) :
  tidy df ->
  let df' := {| columns := COLUMNS;
                rows := rows df ++ combine (seq (len df) 6) (day_rows ui) |} in
  submit_form df ui = Ok (df', save_data df').
Proof.
  intros [Hcols [Hrows Hidx]] df'. unfold submit_form.
  rewrite new_rows_eq. unfold bind.
  rewrite (DataFrame_new_rows ui _ (new_rows_eq ui)).
  assert (concat_ignore_index df
            {| columns := COLUMNS; rows := combine (seq 0 6) (day_rows ui) |} = df')
    as ->; [| reflexivity].
  unfold concat_ignore_index, df'. cbn [columns rows]. rewrite Hcols.
  change (COLUMNS ++ filter (fun c => negb (contains c COLUMNS)) COLUMNS) with COLUMNS.
  f_equal.
  replace (map (fun r => reindex_cells COLUMNS COLUMNS (snd r)) (rows df))
    with (map snd (rows df)).
  - change (map _ (combine (seq 0 6) (day_rows ui))) with (day_rows ui).
    unfold range_index. rewrite (range_index_app_from 0).
    rewrite length_map. fold (len df). simpl (0 + len df).
    f_equal. pose proof (range_index_rows (rows df) Hidx) as H.
    unfold range_index in H. now rewrite length_map in H.
  - apply map_ext_in. intros r Hr. rewrite Forall_forall in Hrows.
    symmetry. apply reindex_cells_same. now apply Hrows.
Qed.

(** C10: whatever is typed into the form, each of the rows it creates has
    its completada flag False, as a dict and as a row of the frame built
    from the dicts. *)
Theorem new_rows_not_completed (ui : widgets) :
  exists rs,
    new_rows ui = Ok rs /\
    length rs = 6 /\
    Forall (fun d => dict_cell d "completada" = Bool false) rs /\
    Forall (fun r => cell (columns (DataFrame_records rs)) r "completada" = Bool false)
           (rows (DataFrame_records rs)).
Proof.
  eexists. split; [apply new_rows_eq |]. split; [reflexivity |].
  split; repeat constructor.
Qed.

(** ** The checklist loop *)

Lemma set_at_idem (ps : list nat) (n : nat) (v : value) (cells : list value) :
  set_at ps n v (set_at ps n v cells) = set_at ps n v cells.
Proof.
  revert n. induction cells as [| x rest IH]; intros n; simpl; [reflexivity |].
  rewrite IH. now destruct (existsb (Nat.eqb n) ps).
Qed.

Lemma set_at_length (ps : list nat) (n : nat) (v : value) (cells : list value) :
  length (set_at ps n v cells) = length cells.
Proof.
  revert n. induction cells as [| x rest IH]; intros n; simpl; [reflexivity |].
  now rewrite IH.
Qed.

Lemma column_of_bool (p : value -> bool) (cells : list value) (b : bool) :
  In (Bool b) cells -> p (Bool b) = false -> column_of p cells = false.
Proof.
  intros Hin Hp. apply not_true_is_false. intros H.
  unfold column_of in H. rewrite forallb_forall in H.
  specialize (H _ Hin). cbv beta iota in H. congruence.
Qed.

(** A column that holds a truth value takes another. *)
Lemma refusal_none (df : DataFrame) (b : bool) :
  In (Bool b) (column df 3) -> refusal df = None.
Proof.
  intros Hin. unfold refusal.
  now rewrite !(column_of_bool _ _ b Hin) by reflexivity.
Qed.

Lemma refusal_bool_flags (df : DataFrame) :
  columns df = COLUMNS -> bool_flags df -> rows df <> [] -> refusal df = None.
Proof.
  intros Hcols Hflags Hrows. unfold bool_flags in Hflags. rewrite Hcols in Hflags.
  destruct (rows df) as [| r rs] eqn:Hr; [contradiction |].
  destruct (Hflags r (or_introl eq_refl)) as [b Hb].
  apply (refusal_none df b). unfold column. rewrite Hr. left. exact Hb.
Qed.

Lemma at_set_tidy (df : DataFrame) (idx : nat) (b : bool) :
  columns df = COLUMNS -> In idx (index df) ->
  at_set df idx "completada" b =
  match refusal df with
  | Some e => Raise e
  | None =>
      Ok {| columns := COLUMNS;
            rows := map (fun r => if fst r =? idx
                                  then (fst r, set_at [3] 0 (Bool b) (snd r)) else r)
                        (rows df) |}
  end.
Proof.
  intros Hcols Hin. unfold at_set, getitem_col. rewrite Hcols.
  change (contains "completada" COLUMNS) with true.
  change (positions "completada" COLUMNS) with [3]. cbv iota.
  replace (existsb (Nat.eqb idx) (index df)) with true.
  - rewrite Hcols. cbn [andb bind]. unfold refusal, column.
    destruct (column_of is_number _); [reflexivity |].
    destruct (column_of is_timestamp _ || column_of is_text _); reflexivity.
  - symmetry. apply existsb_exists. exists idx. split; [assumption |].
    apply Nat.eqb_refl.
Qed.

(** After a flag is stored, the column holds a truth value. *)
Lemma refusal_set (df : DataFrame) (idx : nat) (b : bool) :
  Forall (fun r => length (snd r) = 4) (rows df) -> In idx (index df) ->
  refusal {| columns := COLUMNS;
             rows := map (fun r => if fst r =? idx
                                   then (fst r, set_at [3] 0 (Bool b) (snd r)) else r)
                         (rows df) |} = None.
Proof.
  intros Hlen Hin. apply (refusal_none _ b). unfold column. cbn [rows].
  unfold index in Hin. apply in_map_iff in Hin. destruct Hin as [r [Hfst Hr]].
  rewrite map_map. apply in_map_iff. exists r. split; [| assumption].
  rewrite Hfst, Nat.eqb_refl. cbn [snd].
  rewrite Forall_forall in Hlen. specialize (Hlen r Hr).
  destruct (snd r) as [| f [| n [| d [| c [| x rest]]]]]; try discriminate.
  reflexivity.
Qed.

Lemma toggles_none (chk : nat -> bool) (ts : list (nat * list value)) :
  existsb (differs chk) ts = false -> forall i, toggles chk ts i = false.
Proof.
  intros H i. unfold toggles. induction ts as [| t rest IH]; simpl in *.
  - reflexivity.
  - apply orb_false_iff in H. destruct H as [Ht Hrest].
    rewrite Ht, andb_false_r. now apply IH.
Qed.

Lemma checked_none (chk : nat -> bool) (ts rs : list (nat * list value)) :
  existsb (differs chk) ts = false -> map (checked chk ts) rs = rs.
Proof.
  intros H. rewrite <- (map_id rs) at 2. apply map_ext. intros r.
  unfold checked. now rewrite (toggles_none chk ts H).
Qed.

Lemma fold_raise (chk : nat -> bool) (ts : list (nat * list value)) (e : exn) :
  fold_left (fun acc r => st <- acc ;; check_row COLUMNS chk st r) ts (Raise e) =
  Raise e.
Proof. induction ts as [| t rest IH]; simpl; [reflexivity | exact IH]. Qed.

(** The loop, whatever the column of flags holds: when no box differs
    nothing is touched; when one does, the first flag stored decides
    whether the column takes truth values, and if so the loop runs to its
    end and the file is written from the final table. *)
Lemma checklist_fold (chk : nat -> bool) (ts : list (nat * list value)) :
  forall (df : DataFrame) (fs : store),
    columns df = COLUMNS ->
    Forall (fun r => length (snd r) = 4) (rows df) ->
    (forall t, In t ts -> In (fst t) (index df)) ->
    let df' := {| columns := COLUMNS; rows := map (checked chk ts) (rows df) |} in
    fold_left (fun acc r => st <- acc ;; check_row COLUMNS chk st r) ts (Ok (df, fs)) =
    if existsb (differs chk) ts then
      match refusal df with
      | Some e => Raise e
      | None => Ok (df', save_data df')
      end
    else Ok (df, fs).
Proof.
  induction ts as [| t rest IH]; intros df fs Hcols Hlen Hin df'.
  - reflexivity.
  - cbn [fold_left]. unfold bind at 2. unfold check_row at 2.
    change (row_get COLUMNS (snd t) "completada") with (Ok (cell COLUMNS t "completada")).
    unfold bind at 2. fold (differs chk t). cbn [existsb].
    destruct (differs chk t) eqn:Hd.
    + cbn [fst orb]. rewrite (at_set_tidy df (fst t)) by (auto; apply Hin; now left).
      destruct (refusal df) as [e |] eqn:Href; [apply fold_raise |].
      cbn [bind].
      assert (map (checked chk rest)
                (map (fun r => if fst r =? fst t
                               then (fst r, set_at [3] 0 (Bool (chk (fst t))) (snd r))
                               else r) (rows df)) =
              map (checked chk (t :: rest)) (rows df)) as Hrows.
      { rewrite map_map. apply map_ext. intros r. unfold checked, toggles.
        cbn [existsb]. rewrite Hd, andb_true_r, (Nat.eqb_sym (fst t)).
        destruct (fst r =? fst t) eqn:E; cbn [fst snd orb]; [| reflexivity].
        apply Nat.eqb_eq in E. rewrite <- E, set_at_idem.
        match goal with |- (if ?b then _ else _) = _ => destruct b end;
          reflexivity. }
      rewrite IH; cbn [columns rows]; [| reflexivity | |].
      * rewrite (refusal_set df (fst t)) by (auto; apply Hin; now left).
        rewrite Hrows. fold df'.
        destruct (existsb (differs chk) rest) eqn:Hrest; [reflexivity |].
        unfold df'. rewrite <- Hrows, (checked_none chk rest _ Hrest).
        reflexivity.
      * rewrite Forall_forall in *. intros r Hr. apply in_map_iff in Hr.
        destruct Hr as [x [<- Hx]].
        destruct (fst x =? fst t); cbn [snd]; [rewrite set_at_length |];
          now apply Hlen.
      * intros x Hx. unfold index. cbn [rows]. rewrite map_map.
        rewrite (map_ext _ fst); [apply Hin; now right |].
        intros r. now destruct (fst r =? fst t).
    + cbn [orb]. rewrite IH; [| assumption | assumption | intros x Hx; apply Hin; now right].
      assert (map (checked chk rest) (rows df) = map (checked chk (t :: rest)) (rows df))
        as Hrows.
      { apply map_ext. intros r. unfold checked, toggles. cbn [existsb].
        now rewrite Hd, andb_false_r. }
      rewrite Hrows. reflexivity.
Qed.

(** The loop over the rows of the day, for a tidy table. *)
Lemma checklist_tidy (df today : DataFrame) (sel : date) (fs : store) (chk : nat -> bool) :
  tidy df -> df_today df sel = Ok today ->
  let df' := {| columns := COLUMNS;
                rows := map (checked chk (rows today)) (rows df) |} in
  checklist df today fs chk =
  if existsb (differs chk) (rows today) then
    match refusal df with
    | Some e => Raise e
    | None => Ok (df', save_data df')
    end
  else Ok (df, fs).
Proof.
  intros Htidy Htoday. pose proof Htidy as [Hcols [Hlen _]].
  rewrite df_today_rows in Htoday by (rewrite Hcols; now left).
  injection Htoday as <-. unfold checklist, iterrows. cbn [columns rows].
  rewrite Hcols. apply checklist_fold; [assumption | assumption |].
  intros t Ht. apply filter_In in Ht. apply in_map. apply Ht.
Qed.

(** The loop on a table whose flags are truth values: it runs to its
    end. *)
Lemma checklist_flags (df today : DataFrame) (sel : date) (fs : store) (chk : nat -> bool) :
  tidy df -> bool_flags df -> df_today df sel = Ok today ->
  let df' := {| columns := COLUMNS;
                rows := map (checked chk (rows today)) (rows df) |} in
  checklist df today fs chk =
  Ok (df', if existsb (differs chk) (rows today) then save_data df' else fs).
Proof.
  intros Htidy Hflags Htoday df'.
  rewrite (checklist_tidy df today sel fs chk Htidy Htoday). fold df'.
  pose proof Htidy as [Hcols _].
  destruct (existsb (differs chk) (rows today)) eqn:Hany.
  - rewrite refusal_bool_flags; [reflexivity | assumption | assumption |].
    intros Hnil. rewrite df_today_rows in Htoday by (rewrite Hcols; now left).
    injection Htoday as <-. cbn [rows] in Hany. rewrite Hnil in Hany. discriminate.
  - unfold df'. rewrite (checked_none chk _ _ Hany).
    destruct df as [cols rs]. simpl in Hcols. now subst cols.
Qed.

Lemma in_combine_map {A : Type} (f : A -> A) (l : list A) (x y : A) :
  In (x, y) (combine l (map f l)) -> In x l /\ y = f x.
Proof.
  induction l as [| a rest IH]; simpl; [contradiction |].
  intros [[= <- <-] | H]; [split; [now left | reflexivity] |].
  destruct (IH H) as [Hin ->]. split; [now right | reflexivity].
Qed.

Lemma cell_other_columns (i j : nat) (f n d v w : value) (c : string) :
  c <> "completada" ->
  cell COLUMNS (i, [f; n; d; v]) c = cell COLUMNS (j, [f; n; d; w]) c.
Proof.
  intros Hc. unfold cell, row_get, positions, COLUMNS. simpl.
  destruct (String.eqb_spec c "fecha"); [reflexivity |].
  destruct (String.eqb_spec c "nivel"); [reflexivity |].
  destruct (String.eqb_spec c "descripcion"); [reflexivity |].
  destruct (String.eqb_spec c "completada"); [contradiction | reflexivity].
Qed.

Lemma toggles_one (chk : nat -> bool) (ts : list (nat * list value)) (idx i : nat) :
  In idx (map fst ts) ->
  (forall t, In t ts -> differs chk t = (fst t =? idx)) ->
  toggles chk ts i = (i =? idx).
Proof.
  intros Hidx Hone. unfold toggles.
  destruct (existsb _ ts) eqn:E.
  - apply existsb_exists in E. destruct E as [t [Ht Hb]].
    apply andb_true_iff in Hb. destruct Hb as [Hi Hd].
    rewrite (Hone t Ht) in Hd. apply Nat.eqb_eq in Hi. apply Nat.eqb_eq in Hd.
    symmetry. apply Nat.eqb_eq. congruence.
  - destruct (Nat.eqb_spec i idx) as [-> | Hne]; [| reflexivity].
    apply in_map_iff in Hidx. destruct Hidx as [t [Hfst Ht]].
    rewrite <- E. apply existsb_exists. exists t. split; [assumption |].
    rewrite (Hone t Ht), Hfst. now rewrite Nat.eqb_refl.
Qed.

(** C3: on a table [load_data] returns whose completada column holds truth
    values (the typing the claim presupposes; the table comes from a file
    that is followed here, in which no record is longer than the header, so
    its index is 0, 1, 2, ...): when the checkbox of one row of the day is
    toggled (and no other), the loop comes to its end and writes the table
    and the file, and in the table only the completada flag of that row is
    different: it is the checkbox's state; the row's other cells, every
    cell of every other row, the columns and the index are as before. *)
Theorem toggle_changes_one_flag (fs : store) (sel : date) (chk : nat -> bool)
    (df today : DataFrame) (idx : nat) :
  load_data fs = Ok df ->
  bool_flags df ->
  df_today df sel = Ok today ->
  In idx (index today) ->
  (forall t, In t (rows today) -> differs chk t = (fst t =? idx)) ->
  exists df',
    checklist df today fs chk = Ok (df', save_data df') /\
    columns df' = columns df /\
    index df' = index df /\
    forall r r', In (r, r') (combine (rows df) (rows df')) ->
      fst r' = fst r /\
      (fst r = idx -> cell (columns df') r' "completada" = Bool (chk idx)) /\
      (forall c, fst r <> idx \/ c <> "completada" ->
                 cell (columns df') r' c = cell (columns df) r c).
Proof.
  intros Hload Hflags Htoday Hidx Hone.
  pose proof (load_data_tidy fs df Hload) as Htidy.
  pose proof Htidy as [Hcols _].
  exists {| columns := COLUMNS; rows := map (checked chk (rows today)) (rows df) |}.
  split; [| split; [now rewrite Hcols | split]].
  - rewrite (checklist_flags df today sel fs chk Htidy Hflags Htoday).
    replace (existsb (differs chk) (rows today)) with true; [reflexivity |].
    symmetry. apply existsb_exists. unfold index in Hidx.
    apply in_map_iff in Hidx. destruct Hidx as [t [Hfst Ht]].
    exists t. split; [assumption |]. rewrite (Hone t Ht), Hfst. apply Nat.eqb_refl.
  - unfold index. cbn [rows]. rewrite map_map. apply map_ext.
    intros r. unfold checked. now destruct (toggles _ _ _).
  - cbn [rows columns]. intros r r' Hin.
    apply in_combine_map in Hin. destruct Hin as [Hr ->].
    destruct (tidy_cells df r Htidy Hr) as [f [n [d [c Hcells]]]].
    destruct r as [i cells]. simpl in Hcells. subst cells.
    unfold checked. rewrite (toggles_one chk (rows today) idx _ Hidx Hone).
    cbn [fst snd]. rewrite Hcols.
    destruct (Nat.eqb_spec i idx) as [-> | Hne].
    + split; [reflexivity |]. split; [reflexivity |].
      intros c0 [Hc0 | Hc0]; [congruence |]. now apply cell_other_columns.
    + split; [reflexivity |]. split; [congruence | reflexivity].
Qed.

Lemma toggle_changes_one_flag_witness :
  exists df',
    checklist table_march table_march (Some file_march) (checkbox ui_march) =
      Ok (df', save_data df') /\
    columns df' = columns table_march /\
    index df' = index table_march /\
    forall r r', In (r, r') (combine (rows table_march) (rows df')) ->
      fst r' = fst r /\
      (fst r = 1 -> cell (columns df') r' "completada" = Bool true) /\
      (forall c, fst r <> 1 \/ c <> "completada" ->
                 cell (columns df') r' c = cell (columns table_march) r c).
Proof.
  apply (toggle_changes_one_flag (Some file_march) (selected_date ui_march)
           (checkbox ui_march) table_march table_march 1).
  - vm_compute. reflexivity.
  - intros r [<- | [<- | []]]; eexists; reflexivity.
  - vm_compute. reflexivity.
  - right. left. reflexivity.
  - intros t [<- | [<- | []]]; vm_compute; reflexivity.
Defined.

(** ** Rows are kept *)

Lemma task_of_checked (chk : nat -> bool) (ts : list (nat * list value))
    (r : nat * list value) :
  length (snd r) = 4 ->
  task_of COLUMNS (checked chk ts r) = task_of COLUMNS r.
Proof.
  destruct r as [i [| f [| n [| d [| c [| x rest]]]]]]; try discriminate.
  intros _. unfold checked. now destruct (toggles _ _ _).
Qed.

(** C8: neither transition of a loaded table deletes a row. Submitting the
    form leaves the tasks (fecha, nivel, descripcion) of all rows in place
    and adds rows after them. Whenever the checklist loop comes to its end,
    the tasks of all rows are exactly as they were, with as many rows as
    before; and it does come to its end when the completada column holds
    truth values. (On a column of numbers the loop stops with a TypeError
    at the first flag it would store, before anything is written.) *)
Theorem no_row_is_deleted (fs : store) (ui : widgets) (df : DataFrame) :
  load_data fs = Ok df ->
  (exists st added,
     submit_form df ui = Ok st /\ tasks (fst st) = tasks df ++ added) /\
  (forall today,
     df_today df (selected_date ui) = Ok today ->
     (forall st,
        checklist df today fs (checkbox ui) = Ok st ->
        tasks (fst st) = tasks df /\ len (fst st) = len df) /\
     (bool_flags df ->
      exists st, checklist df today fs (checkbox ui) = Ok st)).
Proof.
  intros Hload. pose proof (load_data_tidy fs df Hload) as Htidy.
  pose proof Htidy as [Hcols [Hrows _]]. split.
  - eexists. eexists. split; [apply (submit_form_tidy df ui Htidy) |].
    unfold tasks. cbn [fst columns rows]. rewrite Hcols, map_app. reflexivity.
  - intros today Htoday. split.
    + intros st Hst.
      rewrite (checklist_tidy df today _ fs _ Htidy Htoday) in Hst.
      destruct (existsb _ (rows today)); [| injection Hst as <-; now split].
      destruct (refusal df); [discriminate |]. injection Hst as <-.
      unfold tasks, len. cbn [fst columns rows]. rewrite Hcols. split.
      * rewrite map_map. apply map_ext_in. intros r Hr.
        apply task_of_checked. rewrite Forall_forall in Hrows. now apply Hrows.
      * apply length_map.
    + intros Hflags. eexists.
      apply (checklist_flags df today _ fs _ Htidy Hflags Htoday).
Qed.

Lemma no_row_is_deleted_witness :
  (exists st added,
     submit_form table_march ui_march = Ok st /\
     tasks (fst st) = tasks table_march ++ added) /\
  (forall today,
     df_today table_march (selected_date ui_march) = Ok today ->
     (forall st,
        checklist table_march today (Some file_march) (checkbox ui_march) = Ok st ->
        tasks (fst st) = tasks table_march /\ len (fst st) = len table_march) /\
     (bool_flags table_march ->
      exists st,
        checklist table_march today (Some file_march) (checkbox ui_march) = Ok st)).
Proof.
  apply (no_row_is_deleted (Some file_march) ui_march table_march).
  vm_compute. reflexivity.
Defined.

(** ** Sorting by insertion *)

Section InsertionSort.
Context {A : Type} (before : A -> A -> bool) (rank : A -> Z) (P : A -> Prop).
Hypothesis before_rank :
  forall a b, P a -> P b -> before a b = (rank b <=? rank a)%Z.

Let desc (a b : A) : Prop := (rank b <= rank a)%Z.

Lemma insert_perm (x : A) (l : list A) : Permutation (x :: l) (insert before x l).
Proof.
  induction l as [| y rest IH]; simpl; [reflexivity |].
  destruct (before x y); [reflexivity |].
  rewrite perm_swap. now apply perm_skip.
Qed.

Lemma isort_perm (l : list A) : Permutation l (isort before l).
Proof.
  induction l as [| x rest IH]; simpl; [reflexivity |].
  rewrite <- insert_perm. now apply perm_skip.
Qed.

Lemma insert_sorted (x : A) (l : list A) :
  P x -> Forall P l -> StronglySorted desc l ->
  StronglySorted desc (insert before x l).
Proof.
  intros Hx HP Hs. induction Hs as [| y rest Hrest IH Hy]; simpl.
  - repeat constructor.
  - inversion HP as [| ? ? HPy HPrest]; subst.
    rewrite (before_rank x y Hx HPy).
    destruct (Z.leb_spec (rank y) (rank x)) as [Hle | Hlt].
    + constructor; [now constructor |].
      constructor; [exact Hle |].
      rewrite Forall_forall in Hy |- *. intros z Hz.
      specialize (Hy z Hz). unfold desc in *. lia.
    + constructor; [now apply IH |].
      rewrite Forall_forall in Hy |- *. intros z Hz.
      apply (Permutation_in _ (Permutation_sym (insert_perm x rest))) in Hz.
      destruct Hz as [<- | Hz]; [unfold desc; lia | now apply Hy].
Qed.

Lemma isort_sorted (l : list A) :
  Forall P l -> StronglySorted desc (isort before l).
Proof.
  induction l as [| x rest IH]; intros HP; simpl; [constructor |].
  inversion HP as [| ? ? Hx Hrest]; subst.
  apply insert_sorted; [assumption | | now apply IH].
  rewrite Forall_forall in Hrest |- *. intros z Hz. apply Hrest.
  now apply (Permutation_in _ (Permutation_sym (isort_perm rest))).
Qed.

Lemma sorted_firstn (n : nat) (l : list A) :
  StronglySorted desc l ->
  StronglySorted desc (firstn n l) /\
  forall a b, In a (firstn n l) -> In b (skipn n l) -> desc a b.
Proof.
  revert l. induction n as [| n IH]; intros l Hs.
  - simpl. split; [constructor | intros a b []].
  - destruct l as [| x rest]; simpl.
    + split; [constructor | intros a b []].
    + inversion Hs as [| ? ? Hrest Hx]; subst.
      destruct (IH rest Hrest) as [Hfirst Hdom]. split.
      * constructor; [assumption |].
        rewrite Forall_forall in Hx |- *. intros z Hz. apply Hx.
        rewrite <- (firstn_skipn n rest). apply in_or_app. now left.
      * intros a b [<- | Ha] Hb; [| now apply Hdom].
        rewrite Forall_forall in Hx. apply Hx.
        rewrite <- (firstn_skipn n rest). apply in_or_app. now right.
Qed.

End InsertionSort.

(** ** The history panel *)

(** [ordinal] orders the dates of the calendar chronologically. *)
Lemma ordinal_chronological (a b : date) :
  valid_date a = true -> valid_date b = true ->
  ((ordinal a < ordinal b)%Z <->
   year a < year b \/
   (year a = year b /\
    (month a < month b \/ (month a = month b /\ day a < day b)))).
Proof.
  assert (forall y m, days_in_month y m <= 31) as Hdim.
  { intros y m. unfold days_in_month.
    do 13 (destruct m as [| m]; [try destruct (is_leap y); lia |]). lia. }
  unfold valid_date, ordinal. intros Ha Hb.
  repeat (apply andb_true_iff in Ha; destruct Ha as [Ha ?]).
  repeat (apply andb_true_iff in Hb; destruct Hb as [Hb ?]).
  repeat match goal with
         | H : (_ <=? _) = true |- _ => apply Nat.leb_le in H
         end.
  pose proof (Hdim (year a) (month a)). pose proof (Hdim (year b) (month b)).
  lia.
Qed.

Lemma before_desc_recency (a b : value) :
  is_dated a -> is_dated b -> before_desc a b = (recency b <=? recency a)%Z.
Proof.
  destruct a, b; simpl; try contradiction; intros _ _; try reflexivity.
  - symmetry. apply Z.leb_gt. unfold ordinal. lia.
  - symmetry. apply Z.leb_le. unfold ordinal. lia.
Qed.

Lemma one_kind_dated (keys : list value) (k : option kind) :
  Forall is_dated keys -> k = None \/ k = Some KTimestamp ->
  one_kind k keys = true.
Proof.
  intros H. revert k. induction H as [| v rest Hv _ IH]; intros k Hk; simpl.
  - reflexivity.
  - destruct v; simpl in Hv; try contradiction; simpl.
    + now apply IH.
    + destruct Hk as [-> | ->]; [apply IH; now right |].
      simpl. apply IH. now right.
Qed.

(** C6: for every table that is not empty (and whose fecha cells are dates
    or missing), the history panel shows the table sorted and cut to at
    most 14 rows: the rows shown are in descending order of date, and none
    of the rows left out is more recent than a row shown. *)
Theorem history_most_recent (df : DataFrame) :
  In "fecha" (columns df) -> rows df <> [] -> dated df ->
  let fecha := fun r => cell (columns df) r "fecha" in
  exists h hidden,
    history df = Ok (Some h) /\
    len h = Nat.min 14 (len df) /\
    len h <= 14 /\
    Permutation (rows df) (rows h ++ hidden) /\
    StronglySorted (fun a b => (recency (fecha b) <= recency (fecha a))%Z) (rows h) /\
    forall a b, In a (rows h) -> In b hidden ->
                (recency (fecha b) <= recency (fecha a))%Z.
Proof.
  intros Hin Hrows Hdated fecha.
  destruct (positions "fecha" (columns df)) as [| p ps] eqn:Hp;
    [exfalso; exact (positions_from_some 0 _ _ Hin Hp) |].
  assert (forall r, nth p (snd r) NA = fecha r) as Hkey
    by (intros r; unfold fecha, cell, row_get; now rewrite Hp).
  set (before := fun a b : nat * list value =>
                   before_desc (nth p (snd a) NA) (nth p (snd b) NA)).
  set (sorted := isort before (rows df)).
  exists {| columns := columns df; rows := firstn 14 sorted |}, (skipn 14 sorted).
  assert (Forall (fun r => is_dated (fecha r)) (rows df)) as HP
    by (rewrite Forall_forall; exact Hdated).
  assert (forall a b, is_dated (fecha a) -> is_dated (fecha b) ->
                      before a b = (recency (fecha b) <=? recency (fecha a))%Z)
    as Hrank
    by (intros a b Ha Hb; unfold before; rewrite !Hkey;
        now apply before_desc_recency).
  pose proof (isort_sorted before (fun r => recency (fecha r)) _ Hrank (rows df) HP)
    as Hsorted.
  destruct (sorted_firstn (fun r => recency (fecha r)) 14 _ Hsorted)
    as [Hfirst Hdom].
  assert (length sorted = len df) as Hlen
    by (symmetry; apply Permutation_length, isort_perm).
  repeat split.
  - assert (empty df = false) as Hne.
    { unfold empty. destruct (columns df); [contradiction |].
      now destruct (rows df). }
    unfold history, sort_values_desc. rewrite Hne, Hp. cbn [negb].
    replace (one_kind None _) with true; [reflexivity |].
    symmetry. apply one_kind_dated; [| now left].
    rewrite Forall_forall. intros v Hv. apply in_map_iff in Hv.
    destruct Hv as [x [<- Hx]]. rewrite Hkey. now apply Hdated.
  - unfold len. cbn [rows]. rewrite length_firstn. fold (len df). now rewrite Hlen.
  - unfold len. cbn [rows]. apply firstn_le_length.
  - cbn [rows]. rewrite firstn_skipn. apply isort_perm.
  - exact Hfirst.
  - exact Hdom.
Qed.

Lemma history_most_recent_witness :
  exists h hidden,
    history table_march = Ok (Some h) /\
    len h = 2 /\ Permutation (rows table_march) (rows h ++ hidden).
Proof.
  destruct (history_most_recent table_march) as [h [hidden [H1 [H2 [_ [H3 _]]]]]].
  - now left.
  - discriminate.
  - intros r [<- | [<- | []]]; exact I.
  - exists h, hidden. repeat split; assumption.
Defined.

(** ** Writing a cell and reading it back *)

Ltac euclid := zify; Z.to_euclidean_division_equations; lia.

Lemma digit_of_digit_char (x : nat) : digit_of (digit_char x) = Some (x mod 10).
Proof.
  unfold digit_of, digit_char.
  rewrite nat_ascii_embedding by euclid.
  replace ((48 <=? 48 + x mod 10) && (48 + x mod 10 <=? 57)) with true.
  - f_equal. lia.
  - symmetry. apply andb_true_iff. split; apply Nat.leb_le; euclid.
Qed.

Lemma number2_digits (a : nat) :
  a < 100 -> number2 (digit_char (a / 10)) (digit_char a) = Some a.
Proof.
  intros Ha. unfold number2. rewrite !digit_of_digit_char. f_equal. euclid.
Qed.

Lemma valid_date_bounds (d : date) :
  valid_date d = true -> year d / 100 < 100 /\ month d < 100 /\ day d < 100.
Proof.
  assert (forall y m, days_in_month y m <= 31) as Hdim.
  { intros y m. unfold days_in_month.
    do 13 (destruct m as [| m]; [try destruct (is_leap y); lia |]). lia. }
  unfold valid_date, ordinal. intros H.
  repeat (apply andb_true_iff in H; destruct H as [H ?]).
  repeat match goal with
         | H : (_ <=? _) = true |- _ => apply Nat.leb_le in H
         | H : (_ <=? _)%Z = true |- _ => apply Z.leb_le in H
         end.
  pose proof (Hdim (year d) (month d)). repeat split; euclid.
Qed.

Lemma parse_isoformat (d : date) :
  valid_date d = true -> parse_date (isoformat d) = Some d.
Proof.
  intros Hvalid. destruct (valid_date_bounds d Hvalid) as [Hy [Hm Hd]].
  unfold parse_date, isoformat. rewrite list_ascii_of_string_of_list_ascii.
  cbn [Ascii.eqb Bool.eqb andb].
  replace (year d / 1000) with (year d / 100 / 10) by euclid.
  rewrite (number2_digits (year d / 100) Hy).
  replace (digit_char (year d / 10)) with (digit_char (year d mod 100 / 10))
    by (unfold digit_char; f_equal; euclid).
  replace (digit_char (year d)) with (digit_char (year d mod 100))
    by (unfold digit_char; f_equal; euclid).
  rewrite (number2_digits (year d mod 100)) by euclid.
  rewrite (number2_digits (month d) Hm), (number2_digits (day d) Hd).
  replace (100 * (year d / 100) + year d mod 100) with (year d) by euclid.
  destruct d as [y m dd]. simpl in *. now rewrite Hvalid.
Qed.

Lemma is_na_short (s : string) : is_na s = true -> String.length s <= 8.
Proof.
  unfold is_na. rewrite existsb_exists. intros [x [Hin Heq]].
  apply String.eqb_eq in Heq. subst x.
  repeat (destruct Hin as [<- | Hin]; [simpl; lia |]). contradiction.
Qed.

Lemma isoformat_present (d : date) : is_na (isoformat d) = false.
Proof.
  destruct (is_na (isoformat d)) eqn:E; [| reflexivity].
  apply is_na_short in E. unfold isoformat in E. simpl in E. lia.
Qed.

Lemma convert_date (d : date) :
  valid_date d = true -> convert datetime64 (isoformat d) = Timestamp d.
Proof.
  intros H. unfold convert. now rewrite isoformat_present, (parse_isoformat d H).
Qed.

Lemma level_fields (n : Z) (dt : bool) :
  (1 <= n <= 3)%Z ->
  is_na (render dt (Int n)) = false /\
  parse_int (render dt (Int n)) = Some n /\
  fits (- 2 ^ 63) (2 ^ 63) (render dt (Int n)) = true.
Proof.
  intros H. assert (n = 1 \/ n = 2 \/ n = 3)%Z as [-> | [-> | ->]] by lia;
    repeat split; reflexivity.
Qed.

Lemma flag_fields (b dt : bool) :
  is_na (render dt (Bool b)) = false /\
  parse_int (render dt (Bool b)) = None /\
  parse_bool (render dt (Bool b)) = Some b.
Proof. destruct b; repeat split. Qed.

(** Plain text is no integer. *)
Lemma plain_text_not_int (s : string) :
  plain_text s = true -> parse_int s = None.
Proof.
  unfold plain_text, number_like, parse_int. intros H.
  apply andb_true_iff in H. destruct H as [_ H]. apply negb_true_iff in H.
  destruct (trim (list_ascii_of_string s)) as [| a rest]; [discriminate |].
  apply orb_false_iff in H. destruct H as [H _].
  apply orb_false_iff in H. destruct H as [Hdigit Hsign].
  simpl in Hsign. apply orb_false_iff in Hsign. destruct Hsign as [Hplus Hsign].
  apply orb_false_iff in Hsign. destruct Hsign as [Hminus _].
  assert (unsigned (a :: rest) = None) as Hu.
  { unfold unsigned. simpl. now destruct (digit_of a). }
  destruct a as [[] [] [] [] [] [] [] []]; try discriminate; exact Hu.
Qed.

Lemma plain_text_parts (s : string) :
  plain_text s = true ->
  printable s = true /\ is_na s = false /\ parse_bool s = None.
Proof.
  unfold plain_text. intros H.
  apply andb_true_iff in H. destruct H as [H _].
  apply andb_true_iff in H. destruct H as [H Hbool].
  apply andb_true_iff in H. destruct H as [Hpr Hna].
  apply negb_true_iff in Hna. apply negb_true_iff in Hbool.
  repeat split; try assumption. now destruct (parse_bool s).
Qed.

Lemma convert_plain (t : dtype) (s : string) :
  plain_text s = true -> t <> datetime64 -> convert t s = Str s.
Proof.
  intros H Ht. pose proof (plain_text_not_int s H) as Hint.
  destruct (plain_text_parts s H) as [_ [Hna Hbool]].
  unfold convert. rewrite Hna, Hint, Hbool.
  destruct t; try reflexivity. contradiction.
Qed.

Lemma infer_dtype_not_date (fields : list string) : infer_dtype fields <> datetime64.
Proof.
  unfold infer_dtype.
  repeat match goal with |- context [if ?b then _ else _] => destruct b end;
    discriminate.
Qed.

(** ** Saving a table and loading it again *)

Lemma read_csv_with_header (f : csv) (parse_dates : list string) :
  header f <> [] ->
  read_csv f parse_dates =
  let names := mangle_dupe_cols (header f) in
  if implicit_index f then Raise Unmodelled
  else if negb (forallb (fun c => contains c names) parse_dates) then Raise ValueError
  else if existsb (fun r => length names <? length r) (records f) then Raise ParserError
  else
    let dtype_of := fun j =>
      let fields := map (fun r => field r j) (records f) in
      if contains (nth j names "") parse_dates then date_dtype fields
      else infer_dtype fields in
    Ok {| columns := names;
          rows := range_index
                    (map (fun r => map (fun j => convert (dtype_of j) (field r j))
                                       (seq 0 (length names)))
                         (records f)) |}.
Proof.
  intros H. unfold read_csv. destruct (header f); [contradiction | reflexivity].
Qed.

Lemma range_index_map (g : nat * list value -> list value) (rs : list (nat * list value)) :
  map fst rs = seq 0 (length rs) ->
  range_index (map g rs) = map (fun r => (fst r, g r)) rs.
Proof.
  unfold range_index. rewrite length_map. generalize 0.
  induction rs as [| r rest IH]; intros n H; simpl in *; [reflexivity |].
  injection H as -> H. now rewrite IH.
Qed.

(** The file written from a table of the four columns. *)
Lemma to_csv_tidy (df : DataFrame) :
  columns df = COLUMNS ->
  to_csv df =
  {| header := COLUMNS;
     records := map (fun r => [written_cell df (snd r) 0; written_cell df (snd r) 1;
                               written_cell df (snd r) 2; written_cell df (snd r) 3])
                    (rows df) |}.
Proof. intros Hc. unfold to_csv. rewrite Hc. reflexivity. Qed.

(** The table [load_data] returns for the file saved from a tidy table. *)
Lemma load_saved (df : DataFrame) :
  tidy df ->
  load_data (save_data df) =
  Ok {| columns := COLUMNS;
        rows := map (fun r => (fst r, reread df (snd r))) (rows df) |}.
Proof.
  intros [Hc [_ Hidx]].
  assert (read_csv (to_csv df) ["fecha"] =
          Ok {| columns := COLUMNS;
                rows := map (fun r => (fst r, reread df (snd r))) (rows df) |})
    as Hread.
  { rewrite (to_csv_tidy df Hc).
    rewrite read_csv_with_header by discriminate.
    unfold implicit_index. cbn [header records].
    change (mangle_dupe_cols COLUMNS) with COLUMNS.
    change (forallb (fun c => contains c COLUMNS) ["fecha"]) with true.
    cbv zeta. cbn [negb].
    replace (match map _ (rows df) with [] => false | r :: _ => _ end) with false
      by (destruct (rows df); reflexivity).
    replace (existsb _ (map _ (rows df))) with false.
    2:{ symmetry. apply not_true_is_false. intros H.
        apply existsb_exists in H. destruct H as [x [Hx Hl]].
        apply in_map_iff in Hx. destruct Hx as [r [<- Hr]]. discriminate Hl. }
    do 2 f_equal. rewrite !map_map.
    rewrite range_index_map by exact Hidx.
    apply map_ext. intros r. f_equal.
    change (seq 0 (length COLUMNS)) with [0; 1; 2; 3]. cbn [map].
    change (contains (nth 0 COLUMNS "") ["fecha"]) with true.
    change (contains (nth 1 COLUMNS "") ["fecha"]) with false.
    change (contains (nth 2 COLUMNS "") ["fecha"]) with false.
    change (contains (nth 3 COLUMNS "") ["fecha"]) with false.
    cbv iota. rewrite !map_map. reflexivity. }
  unfold save_data. rewrite (load_data_read _ _ Hread). cbn [columns rows].
  change (filter (fun c => negb (contains c COLUMNS)) COLUMNS) with (@nil string).
  do 2 f_equal. rewrite map_map. apply map_ext. intros r. reflexivity.
Qed.

(** *** Valid tables *)

Lemma valid_dates (T : DataFrame) :
  valid_table T -> column_of is_timestamp (column T 0) = true.
Proof.
  intros [_ [_ Hv]]. rewrite Forall_forall in Hv.
  unfold column_of, column. apply forallb_forall. intros v Hin.
  apply in_map_iff in Hin. destruct Hin as [r [<- Hr]].
  destruct (Hv r Hr) as [d [n [s [b [-> _]]]]]. reflexivity.
Qed.

Lemma in_present_written (df : DataFrame) (j : nat) (x : string) :
  In x (present (written df j)) ->
  exists r, In r (rows df) /\ x = written_cell df (snd r) j.
Proof.
  unfold present, written. intros H. apply filter_In in H. destruct H as [H _].
  apply in_map_iff in H. destruct H as [r [<- Hr]]. now exists r.
Qed.

(** A row of a valid table with plain descriptions is read back as it
    is. *)
Lemma reread_valid (T : DataFrame) (r : nat * list value) :
  valid_table T -> plain_descriptions T -> In r (rows T) ->
  reread T (snd r) = snd r.
Proof.
  intros Hvalid Hplain Hr. pose proof (valid_dates T Hvalid) as Hdt.
  pose proof Hvalid as [Hc [_ Hv]]. rewrite Forall_forall in Hv.
  assert (forall x, In x (rows T) ->
            exists d n s b,
              snd x = [Timestamp d; Int n; Str s; Bool b] /\
              valid_date d = true /\ (1 <= n <= 3)%Z /\ plain_text s = true /\
              written_cell T (snd x) 0 = isoformat d /\
              written_cell T (snd x) 1 =
                render (column_of is_timestamp (column T 1)) (Int n) /\
              written_cell T (snd x) 2 = s /\
              written_cell T (snd x) 3 =
                render (column_of is_timestamp (column T 3)) (Bool b)) as Hw.
  { intros x Hx. destruct (Hv x Hx) as [d [n [s [b [E [Hd Hn]]]]]].
    exists d, n, s, b. split; [exact E |]. split; [exact Hd |]. split; [exact Hn |].
    split.
    - apply (Hplain x s Hx). rewrite Hc. destruct x as [i cells].
      simpl in E. subst cells. reflexivity.
    - unfold written_cell. rewrite E, Hdt. repeat split. }
  destruct (Hw r Hr) as [d [n [s [b [E [Hd [Hn [Hs [W0 [W1 [W2 W3]]]]]]]]]]].
  unfold reread. rewrite W0, W1, W2, W3, E.
  f_equal; [| f_equal; [| f_equal; [| f_equal]]].
  - replace (date_dtype _) with datetime64; [now apply convert_date |].
    symmetry. unfold date_dtype.
    replace (forallb _ _) with true; [reflexivity |].
    symmetry. apply forallb_forall. intros x Hx.
    apply in_present_written in Hx. destruct Hx as [r' [Hr' ->]].
    destruct (Hw r' Hr') as [d' [_ [_ [_ [_ [Hd' [_ [_ [-> _]]]]]]]]].
    now rewrite (parse_isoformat d' Hd').
  - replace (infer_dtype _) with int64.
    + unfold convert.
      destruct (level_fields n (column_of is_timestamp (column T 1)) Hn)
        as [-> [-> _]]. reflexivity.
    + symmetry. unfold infer_dtype.
      replace (forallb (fits (- 2 ^ 63) (2 ^ 63)) _) with true; [reflexivity |].
      symmetry. apply forallb_forall. intros x Hx.
      apply in_present_written in Hx. destruct Hx as [r' [Hr' ->]].
      destruct (Hw r' Hr') as [_ [n' [_ [_ [_ [_ [Hn' [_ [_ [-> _]]]]]]]]]].
      apply (level_fields n' _ Hn').
  - apply convert_plain; [exact Hs | apply infer_dtype_not_date].
  - set (dt := column_of is_timestamp (column T 3)) in *.
    destruct (flag_fields b dt) as [Fna [Fint Fbool]].
    assert (In (render dt (Bool b)) (present (written T 3))) as Hb.
    { apply filter_In. split; [| now rewrite Fna].
      unfold written. apply in_map_iff. exists r. split; assumption. }
    assert (forall lo hi, forallb (fits lo hi) (present (written T 3)) = false) as Hno.
    { intros lo hi. apply not_true_is_false. intros H.
      rewrite forallb_forall in H. specialize (H _ Hb).
      unfold fits in H. rewrite Fint in H. discriminate. }
    assert (forallb (fun x => is_some (parse_bool x)) (present (written T 3)) = true)
      as Hall.
    { apply forallb_forall. intros x Hx.
      apply in_present_written in Hx. destruct Hx as [r' [Hr' ->]].
      destruct (Hw r' Hr') as [_ [_ [_ [b' [_ [_ [_ [_ [_ [_ [_ ->]]]]]]]]]]].
      fold dt. destruct (flag_fields b' dt) as [_ [_ ->]]. reflexivity. }
    unfold infer_dtype. rewrite !Hno, Hall. cbn [orb].
    unfold convert. now rewrite Fna, Fbool.
Qed.

Lemma valid_tidy (T : DataFrame) : valid_table T -> tidy T.
Proof.
  intros [Hc [Hi Hv]]. repeat split; try assumption.
  rewrite Forall_forall in *. intros r Hr.
  destruct (Hv r Hr) as [d [n [s [b [-> _]]]]]. reflexivity.
Qed.

Lemma load_saved_valid (T : DataFrame) :
  valid_table T -> plain_descriptions T -> load_data (save_data T) = Ok T.
Proof.
  intros Hvalid Hplain. rewrite (load_saved T (valid_tidy T Hvalid)).
  destruct Hvalid as [Hc Hrest].
  assert (map (fun r => (fst r, reread T (snd r))) (rows T) = rows T) as ->.
  { rewrite <- (map_id (rows T)) at 2. apply map_ext_in. intros r Hr.
    rewrite (reread_valid T r (conj Hc Hrest) Hplain Hr). now destruct r. }
  destruct T as [cols rs]. simpl in Hc. now subst cols.
Qed.




(** * More about the script *)

(** ** What [load_data] keeps of the file *)

Lemma nth_map_seq {B : Type} (F : nat -> B) (n j : nat) (d : B) :
  j < n -> nth j (map F (seq 0 n)) d = F j.
Proof.
  intros H. rewrite (nth_indep _ d (F 0)) by now rewrite length_map, length_seq.
  rewrite (map_nth F (seq 0 n) 0 j). now rewrite seq_nth.
Qed.

Lemma in_range_index (g : nat * list value) (cells : list (list value)) :
  In g (range_index cells) -> In (snd g) cells.
Proof.
  intros H. apply (in_map snd) in H. now rewrite range_index_snd in H.
Qed.

(** The cells of the frame [read_csv] returns: column [j] is converted from
    the fields under it with one type for the whole column. *)
Lemma read_csv_cells (f : csv) (parse_dates : list string) (raw : DataFrame) :
  read_csv f parse_dates = Ok raw ->
  forall r, In r (rows raw) ->
  exists rec, In rec (records f) /\
    forall j, j < length (columns raw) ->
      nth j (snd r) NA =
      convert (if contains (nth j (columns raw) "") parse_dates
               then date_dtype (map (fun x => field x j) (records f))
               else infer_dtype (map (fun x => field x j) (records f)))
              (field rec j).
Proof.
  intros Hread. unfold read_csv in Hread.
  destruct (header f) as [| h0 hs] eqn:Hh; [discriminate |].
  rewrite <- Hh in Hread. clear Hh.
  destruct (implicit_index f); [discriminate |].
  destruct (forallb _ parse_dates); cbn [negb] in Hread; [| discriminate].
  destruct (existsb _ (records f)); [discriminate |].
  injection Hread as <-. cbn [columns rows]. intros r Hr.
  apply in_range_index in Hr. apply in_map_iff in Hr.
  destruct Hr as [rec [Hrec Hin]]. exists rec. split; [assumption |].
  intros j Hj. rewrite <- Hrec. now rewrite (nth_map_seq _ _ _ NA Hj).
Qed.

(** The cell [load_data] gives for a column the file has is the cell
    [read_csv] read for it. *)
Lemma load_data_cell (f : csv) (raw : DataFrame) (c : string) (x : nat * list value) :
  read_csv f ["fecha"] = Ok raw -> In c COLUMNS -> In c (columns raw) ->
  In x (rows raw) ->
  let missing_cols := filter (fun c => negb (contains c (columns raw))) COLUMNS in
  cell COLUMNS
    (fst x, reindex_cells (columns raw ++ missing_cols) COLUMNS
              (snd x ++ repeat PyNone (length missing_cols))) c =
  cell (columns raw) x c.
Proof.
  intros Hread Hc Hin Hx missing_cols.
  destruct (read_csv_shape _ _ _ Hread) as [Hnd [Hrect _]].
  rewrite (cell_reindex _ _ _ _ _ COLUMNS_NoDup Hc).
  destruct (positions_nodup c (columns raw) Hnd Hin) as [j [Hp [Hlt _]]].
  unfold positions in *. rewrite positions_from_app, Hp. cbn [app].
  unfold cell, row_get, positions. rewrite Hp.
  unfold rectangular in Hrect. rewrite Forall_forall in Hrect.
  apply app_nth1. now rewrite (Hrect x Hx).
Qed.

(** X9. For a file that [read_csv] reads, [load_data] keeps the rows in
    their order with their index labels, and keeps every cell of each of
    the four columns the file has, wherever the column stands in the file. *)
Theorem load_data_keeps_cells (f : csv) (raw : DataFrame) :
  read_csv f ["fecha"] = Ok raw ->
  exists df,
    load_data (Some f) = Ok df /\
    index df = index raw /\
    forall c, In c COLUMNS -> In c (columns raw) ->
      forall x r, In (x, r) (combine (rows raw) (rows df)) ->
                  cell (columns df) r c = cell (columns raw) x c.
Proof.
  intros Hread. eexists. split; [apply (load_data_read f raw Hread) |].
  cbn [columns rows]. split.
  - unfold index. cbn [rows]. rewrite map_map. reflexivity.
  - intros c Hc Hin x r Hxr. apply in_combine_map in Hxr.
    destruct Hxr as [Hx ->]. now apply (load_data_cell f raw c x Hread).
Qed.

Lemma load_data_keeps_cells_witness :
  exists df,
    load_data (Some file_with_notes) = Ok df /\
    index df = [0; 1].
Proof.
  destruct (load_data_keeps_cells file_with_notes
              {| columns := ["nota"; "fecha"; "nivel"; "descripcion"; "completada"];
                 rows := [(0, [Str "urgente"; Timestamp (mkdate 2024 3 1); Int 1;
                               Str "Cerrar el informe"; Bool false]);
                          (1, [NA; Timestamp (mkdate 2024 3 1); Int 2;
                               Str "Llamar al banco"; Bool true])] |})
    as [df [Hload [Hidx _]]].
  - vm_compute. reflexivity.
  - exists df. split; assumption.
Defined.

(** ** The fecha column of a loaded table *)

Lemma parse_date_valid (s : string) (d : date) :
  parse_date s = Some d -> valid_date d = true.
Proof.
  unfold parse_date. intros H.
  repeat match type of H with
         | match ?x with _ => _ end = _ => destruct x eqn:?; try discriminate
         | (if ?b then _ else _) = _ => destruct b eqn:?; try discriminate
         end.
  injection H as <-. assumption.
Qed.

(** A loaded table has either dates (of the calendar) and missing values
    under fecha, or texts and missing values. *)
Lemma loaded_fecha (fs : store) (df : DataFrame) :
  load_data fs = Ok df ->
  (forall r, In r (rows df) ->
     match cell COLUMNS r "fecha" with
     | NA => True
     | Timestamp d => valid_date d = true
     | _ => False
     end) \/
  (forall r, In r (rows df) ->
     match cell COLUMNS r "fecha" with
     | NA | Str _ => True
     | _ => False
     end).
Proof.
  destruct fs as [f |]; [| intros [= <-]; left; intros r []].
  destruct (read_csv f ["fecha"]) as [raw | e] eqn:Hread;
    [| unfold load_data; rewrite Hread; discriminate].
  pose proof (load_data_read f raw Hread) as Hl. cbv zeta in Hl.
  intros H. rewrite Hl in H. assert (Heq := H). clear H Hl.
  match type of Heq with Ok ?a = Ok df => assert (df = a) as -> by congruence end.
  clear Heq. cbn [rows].
  destruct (read_csv_shape _ _ _ Hread) as [Hnd [_ [_ [_ Hpd]]]].
  assert (In "fecha" (columns raw)) as Hin by (apply Hpd; now left).
  destruct (positions_nodup "fecha" (columns raw) Hnd Hin) as [j [Hp [Hlt Hnth]]].
  assert (forall x, In x (rows raw) ->
            exists rec, In rec (records f) /\
              cell (columns raw) x "fecha" =
              convert (date_dtype (map (fun y => field y j) (records f))) (field rec j))
    as Hcell.
  { intros x Hx. destruct (read_csv_cells f _ raw Hread x Hx) as [rec [Hrec Hj]].
    exists rec. split; [assumption |].
    unfold cell, row_get. rewrite Hp, (Hj j Hlt), Hnth. reflexivity. }
  unfold date_dtype in Hcell.
  destruct (forallb _ (present _)) eqn:Hall; [left | right];
    intros r Hr; apply in_map_iff in Hr; destruct Hr as [x [<- Hx]];
    cbv beta;
    rewrite (load_data_cell f raw "fecha" x Hread (or_introl eq_refl) Hin Hx);
    destruct (Hcell x Hx) as [rec [Hrec ->]]; unfold convert;
    destruct (is_na (field rec j)) eqn:Hna; try exact I.
  rewrite forallb_forall in Hall.
  assert (In (field rec j) (present (map (fun y => field y j) (records f)))) as Hpres.
  { apply filter_In. split; [| now rewrite Hna].
    apply in_map_iff. now exists rec. }
  specialize (Hall _ Hpres).
  destruct (parse_date (field rec j)) as [d |] eqn:Hd; [| discriminate].
  now apply (parse_date_valid _ _ Hd).
Qed.

Lemma one_kind_text (keys : list value) (k : option kind) :
  Forall (fun v => match v with NA | Str _ => True | _ => False end) keys ->
  k = None \/ k = Some KText ->
  one_kind k keys = true.
Proof.
  intros H. revert k. induction H as [| v rest Hv _ IH]; intros k Hk; simpl.
  - reflexivity.
  - destruct v; simpl in Hv; try contradiction; simpl.
    + now apply IH.
    + destruct Hk as [-> | ->]; [apply IH; now right |].
      simpl. apply IH. now right.
Qed.

Lemma loaded_one_kind (fs : store) (df : DataFrame) :
  load_data fs = Ok df ->
  one_kind None (map (fun r => cell COLUMNS r "fecha") (rows df)) = true.
Proof.
  intros Hload. destruct (loaded_fecha fs df Hload) as [H | H].
  - apply one_kind_dated; [| now left]. rewrite Forall_forall.
    intros v Hv. apply in_map_iff in Hv. destruct Hv as [r [<- Hr]].
    specialize (H r Hr). now destruct (cell COLUMNS r "fecha").
  - apply one_kind_text; [| now left]. rewrite Forall_forall.
    intros v Hv. apply in_map_iff in Hv. destruct Hv as [r [<- Hr]].
    exact (H r Hr).
Qed.

(** ** The sidebar *)

Lemma history_sorted (df : DataFrame) :
  columns df = COLUMNS -> rows df <> [] ->
  one_kind None (map (fun r => cell COLUMNS r "fecha") (rows df)) = true ->
  history df =
  Ok (Some {| columns := COLUMNS;
              rows := firstn 14
                        (isort (fun a b => before_desc (cell COLUMNS a "fecha")
                                                       (cell COLUMNS b "fecha"))
                               (rows df)) |}).
Proof.
  intros Hcols Hrows Hkind. unfold history, empty, sort_values_desc.
  rewrite Hcols. change (positions "fecha" COLUMNS) with [0]. cbv iota.
  destruct (rows df) as [| r rs] eqn:Hr; [contradiction |].
  rewrite <- Hr in *. cbn [COLUMNS negb].
  change (map (fun r0 : nat * list value => nth 0 (snd r0) NA) (rows df))
    with (map (fun r0 => cell COLUMNS r0 "fecha") (rows df)).
  rewrite Hkind. reflexivity.
Qed.

Lemma history_empty (df : DataFrame) : rows df = [] -> history df = Ok None.
Proof.
  intros H. unfold history, empty. rewrite H. now destruct (columns df).
Qed.

(** X5. On every table [load_data] returns the sidebar does not fail: with
    no rows it shows the note only; otherwise it shows min(14, n) rows, each
    of them a row of the table. *)
Theorem sidebar_never_fails (fs : store) (df : DataFrame) :
  load_data fs = Ok df ->
  (rows df = [] -> history df = Ok None) /\
  (rows df <> [] ->
   exists h, history df = Ok (Some h) /\ columns h = COLUMNS /\
             len h = Nat.min 14 (len df) /\ incl (rows h) (rows df)).
Proof.
  intros Hload. split; [apply history_empty |].
  intros Hrows. destruct (load_data_tidy fs df Hload) as [Hcols _].
  eexists. split;
    [apply (history_sorted df Hcols Hrows (loaded_one_kind fs df Hload)) |].
  cbn [columns rows]. split; [reflexivity |]. split.
  - unfold len. cbn [rows]. rewrite length_firstn. f_equal.
    symmetry. apply Permutation_length, isort_perm.
  - intros x Hx. eapply Permutation_in.
    + apply Permutation_sym, isort_perm.
    + rewrite <- (firstn_skipn 14). apply in_or_app. left. exact Hx.
Qed.

Lemma sidebar_never_fails_witness :
  (rows table_march = [] -> history table_march = Ok None) /\
  (rows table_march <> [] ->
   exists h, history table_march = Ok (Some h) /\ columns h = COLUMNS /\
             len h = Nat.min 14 (len table_march) /\
             incl (rows h) (rows table_march)).
Proof.
  apply (sidebar_never_fails (Some file_march) table_march).
  vm_compute. reflexivity.
Defined.

Lemma history_loaded (fs : store) (df : DataFrame) :
  load_data fs = Ok df -> exists h, history df = Ok h.
Proof.
  intros Hload. destruct (rows df) as [| r rs] eqn:Hr.
  - eexists. now apply history_empty.
  - destruct (load_data_tidy fs df Hload) as [Hcols _]. eexists.
    apply (history_sorted df Hcols); [now rewrite Hr |].
    apply (loaded_one_kind fs df Hload).
Qed.

(** X4. While the creation form is shown and not submitted, a run writes
    nothing: the file is left as it is and the table is the loaded one. *)
Theorem form_not_submitted_writes_nothing (fs : store) (ui : widgets) (df : DataFrame) :
  load_data fs = Ok df ->
  filter (on_date (selected_date ui) (columns df)) (rows df) = [] ->
  submitted ui = false ->
  exists h,
    script fs ui =
    Ok {| shown := CreationForm; table := df; disk := fs;
          progress := None; sidebar := Some h |}.
Proof.
  intros Hload Hnone Hsub.
  destruct (load_data_tidy fs df Hload) as [Hcols _].
  destruct (history_loaded fs df Hload) as [h Hh]. exists h.
  unfold script. rewrite Hload. unfold bind at 1.
  rewrite df_today_rows by (rewrite Hcols; now left).
  unfold bind at 1. rewrite Hnone.
  replace (branch _) with CreationForm
    by (unfold branch, empty; simpl; now destruct (columns df)).
  now rewrite Hsub, Hh.
Qed.

Lemma form_not_submitted_writes_nothing_witness :
  exists h,
    script (Some file_march)
           (mkwidgets (mkdate 2024 3 2) "" "" "" "" "" "" false (fun _ => false)) =
    Ok {| shown := CreationForm; table := table_march; disk := Some file_march;
          progress := None; sidebar := Some h |}.
Proof.
  apply (form_not_submitted_writes_nothing (Some file_march)
           (mkwidgets (mkdate 2024 3 2) "" "" "" "" "" "" false (fun _ => false))
           table_march); vm_compute; reflexivity.
Defined.

(** ** The checklist loop, whatever the boxes say *)



Lemma toggles_false (chk : nat -> bool) (ts : list (nat * list value)) (t : nat * list value) :
  toggles chk ts (fst t) = false -> In t ts -> differs chk t = false.
Proof.
  unfold toggles. intros H Ht.
  destruct (differs chk t) eqn:E; [| reflexivity].
  rewrite <- H. symmetry. apply existsb_exists. exists t.
  split; [assumption |]. now rewrite Nat.eqb_refl, E.
Qed.





(** ** Flags written as numbers *)

(** X12. With pandas 3, on a loaded table whose completada column holds
    integers (a file with the flags written 1 and 0): a run in which the
    checkbox of some row of the day differs from the row's flag does not
    come to its end. The first [df.at] assignment of the loop raises
    TypeError, before [save_data] is reached. *)
Theorem toggle_on_numbers_raises (fs : store) (ui : widgets) (df : DataFrame)
    (t : nat * list value) :
  load_data fs = Ok df ->
  (forall r, In r (rows df) -> exists z, cell COLUMNS r "completada" = Int z) ->
  In t (rows df) ->
  on_date (selected_date ui) COLUMNS t = true ->
  differs (checkbox ui) t = true ->
  exists today,
    df_today df (selected_date ui) = Ok today /\
    branch today = Checklist /\
    checklist df today fs (checkbox ui) = Raise TypeError /\
    script fs ui = Raise TypeError.
Proof.
  intros Hload Hnum Ht Hon Hd.
  pose proof (load_data_tidy fs df Hload) as Htidy. pose proof Htidy as [Hcols _].
  assert (df_today df (selected_date ui) =
          Ok {| columns := COLUMNS;
                rows := filter (on_date (selected_date ui) COLUMNS) (rows df) |})
    as Htoday by (rewrite df_today_rows by (rewrite Hcols; now left); now rewrite Hcols).
  assert (In t (filter (on_date (selected_date ui) COLUMNS) (rows df))) as Hin
    by (apply filter_In; now split).
  assert (branch {| columns := COLUMNS;
                    rows := filter (on_date (selected_date ui) COLUMNS) (rows df) |} =
          Checklist) as Hbranch.
  { unfold branch, empty. cbn [columns rows COLUMNS].
    destruct (filter _ (rows df)); [contradiction | reflexivity]. }
  assert (refusal df = Some TypeError) as Href.
  { unfold refusal. replace (column_of is_number (column df 3)) with true; [reflexivity |].
    symmetry. unfold column_of, column. apply forallb_forall. intros v Hv.
    apply in_map_iff in Hv. destruct Hv as [r [<- Hr]].
    destruct (Hnum r Hr) as [z Hz].
    change (nth 3 (snd r) NA) with (cell COLUMNS r "completada"). now rewrite Hz. }
  assert (checklist df {| columns := COLUMNS;
                          rows := filter (on_date (selected_date ui) COLUMNS) (rows df) |}
            fs (checkbox ui) = Raise TypeError) as Hloop.
  { rewrite (checklist_tidy df _ _ fs _ Htidy Htoday). cbn [rows]. rewrite Href.
    replace (existsb _ _) with true; [reflexivity |].
    symmetry. apply existsb_exists. now exists t. }
  eexists. split; [exact Htoday |]. split; [exact Hbranch |]. split; [exact Hloop |].
  unfold script. rewrite Hload. cbn [bind]. rewrite Htoday. cbn [bind].
  rewrite Hbranch, Hloop. reflexivity.
Qed.

Lemma toggle_on_numbers_raises_witness :
  exists today,
    df_today {| columns := COLUMNS;
                rows := [(0, [Timestamp (mkdate 2024 3 1); Int 1;
                              Str "Cerrar el informe"; Int 1]);
                         (1, [Timestamp (mkdate 2024 3 1); Int 2;
                              Str "Llamar al banco"; Int 0])] |}
             (selected_date ui_march) = Ok today /\
    branch today = Checklist /\
    checklist {| columns := COLUMNS;
                 rows := [(0, [Timestamp (mkdate 2024 3 1); Int 1;
                               Str "Cerrar el informe"; Int 1]);
                          (1, [Timestamp (mkdate 2024 3 1); Int 2;
                               Str "Llamar al banco"; Int 0])] |}
              today (Some file_numbers) (checkbox ui_march) = Raise TypeError /\
    script (Some file_numbers) ui_march = Raise TypeError.
Proof.
  apply (toggle_on_numbers_raises (Some file_numbers) ui_march _
           (1, [Timestamp (mkdate 2024 3 1); Int 2; Str "Llamar al banco"; Int 0])).
  - vm_compute. reflexivity.
  - intros r [<- | [<- | []]]; eexists; reflexivity.
  - right. left. reflexivity.
  - reflexivity.
  - reflexivity.
Defined.

(** ** Tables the script builds are tidy *)

Lemma checked_fst (chk : nat -> bool) (ts : list (nat * list value))
    (r : nat * list value) :
  fst (checked chk ts r) = fst r.
Proof. unfold checked. now destruct (toggles _ _ _). Qed.

Lemma tidy_checked (chk : nat -> bool) (ts : list (nat * list value)) (df : DataFrame) :
  tidy df ->
  tidy {| columns := COLUMNS; rows := map (checked chk ts) (rows df) |}.
Proof.
  intros [Hc [Hlen Hidx]]. unfold tidy, index, len in *. cbn [columns rows].
  split; [reflexivity |]. split.
  - rewrite Forall_forall in *. intros r Hr. apply in_map_iff in Hr.
    destruct Hr as [x [<- Hx]]. unfold checked.
    destruct (toggles _ _ _); cbn [snd]; [rewrite set_at_length |]; now apply Hlen.
  - rewrite map_map, length_map, <- Hidx. apply map_ext. apply checked_fst.
Qed.

Lemma tidy_submitted (df : DataFrame) (ui : widgets) :
  tidy df ->
  tidy {| columns := COLUMNS;
          rows := rows df ++ combine (seq (len df) 6) (day_rows ui) |}.
Proof.
  intros [Hc [Hlen Hidx]]. unfold tidy, index, len in *. cbn [columns rows].
  split; [reflexivity |]. split.
  - apply Forall_app. split; [assumption |]. repeat constructor.
  - rewrite map_app, length_app, Hidx, seq_app. reflexivity.
Qed.

(** *** and their texts stay free of control characters *)







(** ** Submitting, then the next run *)

Lemma filter_none {B : Type} (f : B -> bool) (l : list B) :
  (forall x, In x l -> f x = false) -> filter f l = [].
Proof.
  induction l as [| x rest IH]; intros H; simpl; [reflexivity |].
  rewrite (H x (or_introl eq_refl)). apply IH. intros y Hy. apply H. now right.
Qed.


Lemma filter_nil_false {B : Type} (f : B -> bool) (l : list B) (x : B) :
  filter f l = [] -> In x l -> f x = false.
Proof.
  intros H Hx. destruct (f x) eqn:E; [| reflexivity].
  assert (In x (filter f l)) as Hin by (apply filter_In; now split).
  rewrite H in Hin. contradiction.
Qed.


(** The run that submits the form, on a loaded table with no row for the
    selected date. *)
Lemma script_submit (fs : store) (ui : widgets) (df : DataFrame) :
  load_data fs = Ok df ->
  filter (on_date (selected_date ui) (columns df)) (rows df) = [] ->
  submitted ui = true ->
  let df' := {| columns := COLUMNS;
                rows := rows df ++ combine (seq (len df) 6) (day_rows ui) |} in
  script fs ui =
  Ok {| shown := CreationForm; table := df'; disk := save_data df';
        progress := None; sidebar := None |}.
Proof.
  intros Hload Hnone Hsub df'.
  pose proof (load_data_tidy fs df Hload) as Htidy.
  unfold script. rewrite Hload. unfold bind at 1.
  rewrite df_today_rows by (destruct Htidy as [-> _]; now left).
  unfold bind at 1. rewrite Hnone.
  replace (branch _) with CreationForm
    by (unfold branch, empty; simpl; now destruct (columns df)).
  rewrite Hsub, (submit_form_tidy df ui Htidy). reflexivity.
Qed.

Lemma column_of_other (p : value -> bool) (cells : list value) (v : value) :
  In v cells -> match v with NA => true | _ => p v end = false ->
  column_of p cells = false.
Proof.
  intros Hin Hp. apply not_true_is_false. intros H.
  unfold column_of in H. rewrite forallb_forall in H.
  specialize (H _ Hin). cbv beta in H. congruence.
Qed.

(** After a submit the fecha column holds [datetime.date]s, so it is no
    datetime64 column. *)
Lemma submitted_dates (df : DataFrame) (ui : widgets) :
  column_of is_timestamp
    (column {| columns := COLUMNS;
               rows := rows df ++ combine (seq (len df) 6) (day_rows ui) |} 0) = false.
Proof.
  apply (column_of_other _ _ (PyDate (selected_date ui))); [| reflexivity].
  unfold column. cbn [rows]. rewrite map_app. apply in_or_app. right.
  left. reflexivity.
Qed.

Lemma level_text_render (n : Z) (dt : bool) :
  (1 <= n <= 3)%Z -> render dt (Int n) = level_text n.
Proof.
  intros H. assert (n = 1 \/ n = 2 \/ n = 3)%Z as [-> | [-> | ->]] by lia;
    reflexivity.
Qed.

(** The file a submit writes, for a valid table. *)
Lemma submitted_file (df : DataFrame) (ui : widgets) :
  valid_table df ->
  save_data {| columns := COLUMNS;
               rows := rows df ++ combine (seq (len df) 6) (day_rows ui) |} =
  Some {| header := COLUMNS;
          records := map stored_record (rows df) ++ form_records ui |}.
Proof.
  intros [_ [_ Hv]]. rewrite Forall_forall in Hv.
  unfold save_data. rewrite to_csv_tidy by reflexivity. cbn [rows].
  rewrite map_app. do 2 f_equal.
  apply (f_equal2 (@app (list string))); [| reflexivity].
  apply map_ext_in. intros r Hr.
  destruct (Hv r Hr) as [d [n [s [b [E [_ Hn]]]]]].
  unfold stored_record, written_cell. rewrite E, submitted_dates. cbn [nth].
  rewrite (level_text_render n _ Hn). now destruct b.
Qed.

(** C2: when the form is submitted for a date that has no rows yet, the
    table gets exactly six more rows at its end, all for that date, with
    levels 1, 2, 2, 3, 3, 3 in this order, and the file is written from
    the new table. What the file then holds is spelled out for a valid
    table and texts without control characters: under the four labels, one
    record for each task that was there, its date now written with the
    time of day (2024-03-01 00:00:00), followed by the six new records,
    their date written alone. *)
Theorem submit_appends_six_rows (fs : store) (ui : widgets) (df : DataFrame) :
  load_data fs = Ok df ->
  filter (on_date (selected_date ui) (columns df)) (rows df) = [] ->
  submitted ui = true ->
  exists df',
    script fs ui =
      Ok {| shown := CreationForm; table := df'; disk := save_data df';
            progress := None; sidebar := None |} /\
    columns df' = COLUMNS /\
    rows df' = rows df ++ combine (seq (len df) 6) (day_rows ui) /\
    (valid_table df -> printable_table df -> printable_form ui = true ->
     save_data df' =
     Some {| header := COLUMNS;
             records := map stored_record (rows df) ++ form_records ui |}).
Proof.
  intros Hload Hnone Hsub.
  exists {| columns := COLUMNS;
            rows := rows df ++ combine (seq (len df) 6) (day_rows ui) |}.
  split; [apply (script_submit fs ui df Hload Hnone Hsub) |].
  split; [reflexivity |]. split; [reflexivity |].
  intros Hvalid _ _. apply (submitted_file df ui Hvalid).
Qed.

Lemma submit_appends_six_rows_witness :
  exists df',
    script (Some file_march) ui_submit =
      Ok {| shown := CreationForm; table := df'; disk := save_data df';
            progress := None; sidebar := None |} /\
    columns df' = COLUMNS /\
    rows df' = rows table_march ++ combine (seq 2 6) (day_rows ui_submit) /\
    save_data df' =
    Some {| header := COLUMNS;
            records := [["2024-03-01 00:00:00"; "1"; "Cerrar el informe"; "True"];
                        ["2024-03-01 00:00:00"; "2"; "Llamar al banco"; "False"];
                        ["2024-03-02"; "1"; "Cerrar el informe"; "False"];
                        ["2024-03-02"; "2"; ""; "False"];
                        ["2024-03-02"; "2"; "Llamar al banco"; "False"];
                        ["2024-03-02"; "3"; "Regar"; "False"];
                        ["2024-03-02"; "3"; "Correo"; "False"];
                        ["2024-03-02"; "3"; "Compra"; "False"]] |}.
Proof.
  destruct (submit_appends_six_rows (Some file_march) ui_submit table_march)
    as [df' [Hrun [Hcols [Hrows Hfile]]]]; try reflexivity.
  exists df'. split; [exact Hrun |]. split; [exact Hcols |]. split; [exact Hrows |].
  rewrite Hfile; [reflexivity | | repeat constructor | reflexivity].
  repeat split. repeat constructor.
  - exists (mkdate 2024 3 1), 1%Z, "Cerrar el informe", true. repeat split; lia.
  - exists (mkdate 2024 3 1), 2%Z, "Llamar al banco", false. repeat split; lia.
Defined.

(** *** The first submit *)



(** *** A later submit *)

Lemma stamp_present (d : date) : is_na (isoformat d ++ " 00:00:00") = false.
Proof.
  destruct (is_na (isoformat d ++ " 00:00:00")) eqn:E; [| reflexivity].
  apply is_na_short in E. unfold isoformat in E. simpl in E. lia.
Qed.

Lemma stamp_no_date (d : date) : parse_date (isoformat d ++ " 00:00:00") = None.
Proof. reflexivity. Qed.

(** X11. A submit on a table that already has tasks spoils the dates of
    the file. On a valid loaded table with at least one row (and texts
    without control characters), after the form is submitted for a date
    that has no rows yet, the file holds the old dates with a time of day
    and the new ones without; the next run's [read_csv] finds no single
    date format in the column and leaves fecha as text. The next run then
    has all the rows, but for every date it selects none of them and shows
    the creation form. *)
Theorem later_submit_hides_all_rows (fs : store) (ui : widgets) (df : DataFrame) :
  load_data fs = Ok df ->
  valid_table df ->
  rows df <> [] ->
  printable_table df ->
  printable_form ui = true ->
  filter (on_date (selected_date ui) (columns df)) (rows df) = [] ->
  submitted ui = true ->
  exists r df2,
    script fs ui = Ok r /\
    load_data (disk r) = Ok df2 /\
    len df2 = len df + 6 /\
    (forall x, In x (rows df2) -> exists s, cell COLUMNS x "fecha" = Str s) /\
    forall sel,
      exists today,
        df_today df2 sel = Ok today /\ rows today = [] /\ branch today = CreationForm.
Proof.
  intros Hload Hvalid Hsome _ _ Hnone Hsub.
  pose proof (load_data_tidy fs df Hload) as Htidy.
  pose proof (script_submit fs ui df Hload Hnone Hsub) as Hrun. cbv zeta in Hrun.
  pose proof (tidy_submitted df ui Htidy) as Ht.
  pose proof (submitted_dates df ui) as Hcol.
  set (df' := {| columns := COLUMNS;
                 rows := rows df ++ combine (seq (len df) 6) (day_rows ui) |}) in *.
  pose proof (load_saved df' Ht) as Hl.
  destruct Hvalid as [_ [_ Hv]]. rewrite Forall_forall in Hv.
  assert (forall x, In x (rows df') ->
            exists d, written_cell df' (snd x) 0 = isoformat d \/
                      written_cell df' (snd x) 0 = (isoformat d ++ " 00:00:00")%string)
    as Hw.
  { intros x Hx. unfold df' in Hx. cbn [rows] in Hx. apply in_app_or in Hx.
    destruct Hx as [Hx | Hx].
    - destruct (Hv x Hx) as [d [n [s [b [E _]]]]]. exists d. right.
      unfold written_cell. now rewrite E, Hcol.
    - exists (selected_date ui). left.
      destruct x as [i cells]. apply in_combine_r in Hx. unfold day_rows in Hx.
      repeat (destruct Hx as [<- | Hx]; [reflexivity |]). contradiction. }
  assert (date_dtype (written df' 0) = object) as Hdt.
  { unfold date_dtype. replace (forallb _ _) with false; [reflexivity |].
    symmetry. apply not_true_is_false. intros H. rewrite forallb_forall in H.
    assert (exists r0, In r0 (rows df)) as [r0 Hr0]
      by (destruct (rows df) as [| r0 rs]; [contradiction | exists r0; now left]).
    destruct (Hv r0 Hr0) as [d [n [s [b [E _]]]]].
    specialize (H (isoformat d ++ " 00:00:00")%string).
    rewrite stamp_no_date in H. discriminate H.
    apply filter_In. split; [| now rewrite stamp_present].
    unfold written. apply in_map_iff. exists r0. split.
    - unfold written_cell. now rewrite E, Hcol.
    - unfold df'. cbn [rows]. apply in_or_app. now left. }
  set (df2 := {| columns := COLUMNS;
                 rows := map (fun r => (fst r, reread df' (snd r))) (rows df') |}) in *.
  assert (forall x, In x (rows df2) -> exists s, cell COLUMNS x "fecha" = Str s)
    as Htext.
  { intros x Hx. cbn [rows] in Hx. apply in_map_iff in Hx.
    destruct Hx as [y [<- Hy]].
    change (cell COLUMNS (fst y, reread df' (snd y)) "fecha")
      with (convert (date_dtype (written df' 0)) (written_cell df' (snd y) 0)).
    rewrite Hdt. unfold convert.
    destruct (Hw y Hy) as [d [-> | ->]].
    - rewrite isoformat_present. now eexists.
    - rewrite stamp_present. now eexists. }
  eexists. exists df2. split; [exact Hrun |]. cbn [disk]. split; [exact Hl |].
  split.
  { unfold len, df2, df'. cbn [rows]. rewrite length_map, length_app. reflexivity. }
  split; [exact Htext |].
  intros sel. eexists. split; [apply df_today_rows; now left |].
  change (columns df2) with COLUMNS. cbn [rows].
  rewrite filter_none; [split; reflexivity |].
  intros x Hx. destruct (Htext x Hx) as [s Hs]. unfold on_date. now rewrite Hs.
Qed.

Lemma later_submit_hides_all_rows_witness :
  exists r df2,
    script (Some file_march) ui_submit = Ok r /\
    load_data (disk r) = Ok df2 /\
    len df2 = len table_march + 6 /\
    (forall x, In x (rows df2) -> exists s, cell COLUMNS x "fecha" = Str s) /\
    forall sel,
      exists today,
        df_today df2 sel = Ok today /\ rows today = [] /\ branch today = CreationForm.
Proof.
  apply (later_submit_hides_all_rows (Some file_march) ui_submit table_march).
  - vm_compute. reflexivity.
  - repeat split. repeat constructor.
    + exists (mkdate 2024 3 1), 1%Z, "Cerrar el informe", true. repeat split; lia.
    + exists (mkdate 2024 3 1), 2%Z, "Llamar al banco", false. repeat split; lia.
  - discriminate.
  - repeat constructor.
  - reflexivity.
  - reflexivity.
  - reflexivity.
Defined.

(** ** A run on a valid table *)

Lemma sum_from (flags : list value) (acc : Z) :
  Forall (fun v => exists b, v = Bool b) flags ->
  fold_left (fun a v => (a + number_of v)%Z) flags acc =
  (acc + Z.of_nat (length (filter (fun v => py_eq v (Bool true)) flags)))%Z.
Proof.
  intros H. revert acc. induction H as [| v rest [b ->] _ IH]; intros acc; simpl.
  - lia.
  - rewrite IH. destruct b; simpl; lia.
Qed.

Lemma sum_flags (flags : list value) :
  Forall (fun v => exists b, v = Bool b) flags ->
  sum flags =
  Ok (Int (Z.of_nat (length (filter (fun v => py_eq v (Bool true)) flags)))).
Proof.
  intros H. unfold sum.
  replace (forallb summable flags) with true.
  - now rewrite (sum_from flags 0 H).
  - symmetry. apply forallb_forall. intros v Hv. rewrite Forall_forall in H.
    destruct (H v Hv) as [b ->]. reflexivity.
Qed.

Lemma valid_flags (T : DataFrame) : valid_table T -> bool_flags T.
Proof.
  intros [Hc [_ Hv]] r Hr. rewrite Forall_forall in Hv. rewrite Hc.
  destruct (Hv r Hr) as [d [n [s [b [E _]]]]]. exists b.
  destruct r as [i cells]. simpl in E. subst cells. reflexivity.
Qed.

Lemma checked_valid (chk : nat -> bool) (ts : list (nat * list value))
    (r : nat * list value) :
  valid_entry (snd r) ->
  valid_entry (snd (checked chk ts r)) /\
  task_of COLUMNS (checked chk ts r) = task_of COLUMNS r.
Proof.
  intros [d [n [s [b [E [Hd Hn]]]]]]. destruct r as [i cells]. simpl in E. subst cells.
  unfold checked. destruct (toggles _ _ _); cbn [fst snd set_at existsb Nat.eqb orb].
  - split; [| reflexivity]. exists d, n, s, (chk i).
    split; [reflexivity | split; assumption].
  - split; [| reflexivity]. exists d, n, s, b.
    split; [reflexivity | split; assumption].
Qed.

(** A row of the day after the loop agrees with its box; a row keeps its
    date. *)
Lemma checked_row (chk : nat -> bool) (sel : date) (T : DataFrame) (r : nat * list value) :
  tidy T -> In r (rows T) ->
  let today := filter (on_date sel COLUMNS) (rows T) in
  on_date sel COLUMNS (checked chk today r) = on_date sel COLUMNS r /\
  (on_date sel COLUMNS r = true -> differs chk (checked chk today r) = false).
Proof.
  intros Htidy Hr today.
  destruct (tidy_cells T r Htidy Hr) as [f [n [d [c Hcells]]]].
  destruct r as [i cells]. simpl in Hcells. subst cells.
  unfold checked. cbn [fst snd].
  destruct (toggles chk today i) eqn:Htog; split; try reflexivity; intros Hd.
  - unfold differs, py_ne. simpl. now rewrite Bool.eqb_reflx.
  - apply (toggles_false chk today (i, [f; n; d; c]) Htog).
    apply filter_In. split; assumption.
Qed.

Lemma count_done (l : list (nat * list value)) :
  length (filter (fun v => py_eq v (Bool true))
                 (map (fun r => cell COLUMNS r "completada") l)) =
  length (filter done_flag l).
Proof.
  induction l as [| r rest IH]; simpl; [reflexivity |].
  unfold done_flag at 1. destruct (py_eq _ _); simpl; now rewrite IH.
Qed.

(** The whole run, on a valid table with rows for the selected date. *)
Lemma script_checklist (fs : store) (ui : widgets) (T : DataFrame) :
  load_data fs = Ok T -> valid_table T ->
  filter (on_date (selected_date ui) COLUMNS) (rows T) <> [] ->
  let today := filter (on_date (selected_date ui) COLUMNS) (rows T) in
  let T' := {| columns := COLUMNS; rows := map (checked (checkbox ui) today) (rows T) |} in
  exists h,
    script fs ui =
    Ok {| shown := Checklist; table := T';
          disk := if existsb (differs (checkbox ui)) today then save_data T' else fs;
          progress := Some (Int (Z.of_nat (length (filter done_flag today))),
                            length today);
          sidebar := Some h |}.
Proof.
  intros Hload Hvalid Hsome today T'.
  pose proof (valid_tidy T Hvalid) as Htidy. pose proof Htidy as [Hcols _].
  pose proof (valid_flags T Hvalid) as Hflags.
  destruct Hvalid as [_ [_ Hentries]]. rewrite Forall_forall in Hentries.
  assert (df_today T (selected_date ui) = Ok {| columns := COLUMNS; rows := today |})
    as Htoday by (rewrite df_today_rows by (rewrite Hcols; now left); now rewrite Hcols).
  assert (exists h, history T' = Ok h) as [h Hh].
  { eexists. apply history_sorted; [reflexivity | |].
    - cbn [rows]. intros E. apply Hsome.
      apply map_eq_nil in E. unfold today. now rewrite E.
    - apply one_kind_dated; [| now left]. rewrite Forall_forall.
      intros v Hv. apply in_map_iff in Hv. destruct Hv as [r' [<- Hr']].
      cbn [rows] in Hr'. apply in_map_iff in Hr'. destruct Hr' as [r [<- Hr]].
      destruct (checked_valid (checkbox ui) today r (Hentries r Hr))
        as [[d [n [s [b [E _]]]]] _].
      destruct (checked (checkbox ui) today r) as [i cells]. simpl in E.
      subst cells. exact I. }
  exists h. unfold script. rewrite Hload. unfold bind at 1.
  rewrite Htoday. unfold bind at 1.
  replace (branch _) with Checklist.
  2:{ unfold branch, empty. cbn [columns rows]. unfold today.
      destruct (filter _ (rows T)); [exfalso; now apply Hsome | reflexivity]. }
  rewrite (checklist_flags T _ _ fs _ Htidy Hflags Htoday). cbn [rows]. fold T'.
  unfold bind at 1. cbn [fst snd].
  change (getitem_col {| columns := COLUMNS; rows := today |} "completada")
    with (Ok (map (fun r : nat * list value => cell COLUMNS r "completada") today)).
  unfold bind at 1.
  rewrite sum_flags.
  2:{ rewrite Forall_forall. intros v Hv. apply in_map_iff in Hv.
      destruct Hv as [r [<- Hr]]. apply filter_In in Hr. destruct Hr as [Hr _].
      destruct (Hentries r Hr) as [d [n [s [b [E _]]]]].
      destruct r as [i cells]. simpl in E. subst cells. now exists b. }
  unfold bind at 1. rewrite Hh. unfold bind. unfold len. cbn [rows].
  now rewrite count_done.
Qed.

(** X3. On a valid table with rows for the selected date the run comes to
    its end, and its progress line reports, out of the rows of the day,
    the number whose flag is True in the table as loaded (a box ticked in
    this very run is not counted yet); the number is at most the total. *)
Theorem progress_counts_loaded_flags (fs : store) (ui : widgets) (T : DataFrame) :
  load_data fs = Ok T -> valid_table T ->
  filter (on_date (selected_date ui) COLUMNS) (rows T) <> [] ->
  let today := filter (on_date (selected_date ui) COLUMNS) (rows T) in
  exists r,
    script fs ui = Ok r /\
    progress r = Some (Int (Z.of_nat (length (filter done_flag today))), length today) /\
    length (filter done_flag today) <= length today.
Proof.
  intros Hload Hvalid Hsome today.
  destruct (script_checklist fs ui T Hload Hvalid Hsome) as [h Hrun].
  eexists. split; [exact Hrun |]. split; [reflexivity |]. apply filter_length_le.
Qed.

Lemma progress_counts_loaded_flags_witness :
  exists r,
    script (Some file_march) ui_march = Ok r /\
    progress r = Some (Int 1, 2).
Proof.
  destruct (progress_counts_loaded_flags (Some file_march) ui_march table_march)
    as [r [Hrun [Hp _]]].
  - vm_compute. reflexivity.
  - repeat split. repeat constructor.
    + exists (mkdate 2024 3 1), 1%Z, "Cerrar el informe", true. repeat split; lia.
    + exists (mkdate 2024 3 1), 2%Z, "Llamar al banco", false. repeat split; lia.
  - discriminate.
  - exists r. split; assumption.
Defined.

Lemma nonempty_In {B : Type} (l : list B) : l <> [] -> exists x, In x l.
Proof. destruct l as [| x rest]; [contradiction | exists x; now left]. Qed.

Lemma checked_table_valid (chk : nat -> bool) (ts : list (nat * list value)) (T : DataFrame) :
  valid_table T -> plain_descriptions T ->
  let T' := {| columns := COLUMNS; rows := map (checked chk ts) (rows T) |} in
  valid_table T' /\ plain_descriptions T'.
Proof.
  intros Hvalid Hplain T'. pose proof (valid_tidy T Hvalid) as Htidy.
  destruct (tidy_checked chk ts T Htidy) as [_ [_ Hidx]].
  destruct Hvalid as [Hc [_ Hentries]]. rewrite Forall_forall in Hentries. split.
  - split; [reflexivity |]. split; [exact Hidx |].
    rewrite Forall_forall. intros r' Hr'. cbn [rows] in Hr'.
    apply in_map_iff in Hr'. destruct Hr' as [r [<- Hr]].
    apply (checked_valid chk ts r (Hentries r Hr)).
  - intros r' s Hr' Hs. cbn [rows columns] in *.
    apply in_map_iff in Hr'. destruct Hr' as [r [<- Hr]].
    apply (Hplain r s Hr). rewrite Hc.
    destruct (checked_valid chk ts r (Hentries r Hr)) as [_ Htask].
    unfold task_of in Htask. injection Htask as _ _ Hd. now rewrite <- Hd.
Qed.

(** X8. On a valid table with plain descriptions and rows for the selected
    date, running the script again with the same widgets, on the file the
    first run left, changes nothing: the second run shows the checklist,
    ends with the same table and leaves the file as it found it. *)
Theorem rerun_changes_nothing (fs : store) (ui : widgets) (T : DataFrame) :
  load_data fs = Ok T -> valid_table T -> plain_descriptions T ->
  filter (on_date (selected_date ui) COLUMNS) (rows T) <> [] ->
  exists r r',
    script fs ui = Ok r /\
    script (disk r) ui = Ok r' /\
    shown r' = Checklist /\ table r' = table r /\ disk r' = disk r.
Proof.
  intros Hload Hvalid Hplain Hsome.
  pose proof (valid_tidy T Hvalid) as Htidy.
  destruct (script_checklist fs ui T Hload Hvalid Hsome) as [h Hrun].
  set (today := filter (on_date (selected_date ui) COLUMNS) (rows T)) in *.
  set (T' := {| columns := COLUMNS;
                rows := map (checked (checkbox ui) today) (rows T) |}) in *.
  destruct (checked_table_valid (checkbox ui) today T Hvalid Hplain)
    as [Hvalid' Hplain']. fold T' in Hvalid', Hplain'.
  set (fs' := if existsb (differs (checkbox ui)) today then save_data T' else fs) in *.
  assert (load_data fs' = Ok T') as Hload'.
  { unfold fs'. destruct (existsb (differs (checkbox ui)) today) eqn:Hany.
    - apply (load_saved_valid T' Hvalid' Hplain').
    - rewrite Hload. f_equal. unfold T'.
      rewrite (checked_none _ _ _ Hany). destruct Htidy as [Hc _].
      destruct T as [cols rs]. simpl in Hc. now subst cols. }
  assert (forall t, In t (filter (on_date (selected_date ui) COLUMNS) (rows T')) ->
                    differs (checkbox ui) t = false) as Hagree.
  { intros t Ht. apply filter_In in Ht. destruct Ht as [Ht Hon].
    cbn [rows] in Ht. apply in_map_iff in Ht. destruct Ht as [r [<- Hr]].
    destruct (checked_row (checkbox ui) (selected_date ui) T r Htidy Hr) as [Hsame Hd].
    fold today in Hsame, Hd. apply Hd. now rewrite <- Hsame. }
  assert (filter (on_date (selected_date ui) COLUMNS) (rows T') <> []) as Hsome'.
  { destruct (nonempty_In _ Hsome) as [r0 Hr0].
    apply filter_In in Hr0. destruct Hr0 as [Hr0 Hon].
    destruct (checked_row (checkbox ui) (selected_date ui) T r0 Htidy Hr0) as [Hsame _].
    fold today in Hsame. intros E.
    assert (In (checked (checkbox ui) today r0)
               (filter (on_date (selected_date ui) COLUMNS) (rows T'))) as Hin.
    { apply filter_In. split; [cbn [rows]; now apply in_map | now rewrite Hsame]. }
    rewrite E in Hin. contradiction. }
  destruct (script_checklist fs' ui T' Hload' Hvalid' Hsome') as [h' Hrun'].
  assert (existsb (differs (checkbox ui))
            (filter (on_date (selected_date ui) COLUMNS) (rows T')) = false) as Hnone.
  { apply not_true_is_false. intros H. apply existsb_exists in H.
    destruct H as [t [Ht Hd]]. rewrite (Hagree t Ht) in Hd. discriminate. }
  rewrite Hnone in Hrun'. rewrite (checked_none _ _ _ Hnone) in Hrun'.
  eexists. eexists. split; [exact Hrun |]. cbn [disk]. fold fs'.
  split; [exact Hrun' |]. cbn [shown table disk]. repeat split.
Qed.

Lemma rerun_changes_nothing_witness :
  exists r r',
    script (Some file_march) ui_march = Ok r /\
    script (disk r) ui_march = Ok r' /\
    shown r' = Checklist /\ table r' = table r /\ disk r' = disk r.
Proof.
  apply (rerun_changes_nothing (Some file_march) ui_march table_march).
  - vm_compute. reflexivity.
  - repeat split. repeat constructor.
    + exists (mkdate 2024 3 1), 1%Z, "Cerrar el informe", true. repeat split; lia.
    + exists (mkdate 2024 3 1), 2%Z, "Llamar al banco", false. repeat split; lia.
  - intros r s [<- | [<- | []]] [= <-]; reflexivity.
  - discriminate.
Defined.

(** ** A file with a fecha that is no date *)

(** X10. When the loaded table has a text under fecha in some row (a field
    of the file was no date, so the whole column stayed text), no row
    matches any selected date: for every date the day's rows are none and
    the page shows the creation form. *)
Theorem text_date_hides_all_rows (fs : store) (df : DataFrame) (r0 : nat * list value)
    (s0 : string) :
  load_data fs = Ok df ->
  In r0 (rows df) -> cell COLUMNS r0 "fecha" = Str s0 ->
  forall sel,
    exists today,
      df_today df sel = Ok today /\ rows today = [] /\ branch today = CreationForm.
Proof.
  intros Hload Hr0 Hs0 sel. destruct (load_data_tidy fs df Hload) as [Hcols _].
  eexists. split; [apply df_today_rows; rewrite Hcols; now left |].
  cbn [rows]. rewrite Hcols.
  assert (filter (on_date sel COLUMNS) (rows df) = []) as ->.
  { apply filter_none. intros r Hr. unfold on_date.
    destruct (loaded_fecha fs df Hload) as [H | H].
    - specialize (H r0 Hr0). rewrite Hs0 in H. contradiction.
    - specialize (H r Hr). now destruct (cell COLUMNS r "fecha"). }
  split; reflexivity.
Qed.

Lemma text_date_hides_all_rows_witness :
  exists today,
    df_today {| columns := COLUMNS;
                rows := [(0, [Str "2024-03-01"; Int 1; Str "Cerrar el informe"; Bool true]);
                         (1, [Str "mañana"; Int 2; Str "Llamar al banco"; Bool false])] |}
             (mkdate 2024 3 1) = Ok today /\
    rows today = [] /\ branch today = CreationForm.
Proof.
  apply (text_date_hides_all_rows (Some file_bad_date) _
           (1, [Str "mañana"; Int 2; Str "Llamar al banco"; Bool false]) "mañana").
  - vm_compute. reflexivity.
  - right. left. reflexivity.
  - reflexivity.
Defined.
